(** * fuel.datasets.hdf5: the H5PYDataset handle registry, split resolution
      and request translation

    A shallow embedding of [H5PYDataset] (src/fuel/datasets/hdf5.py).

    - Python exceptions are values of [exn]; a computation that can raise
      and that reads or writes the class attribute [H5PYDataset.ref_counts]
      lives in the monad [M], in which the world survives a raise (a
      [defaultdict] lookup that inserts its default and then fails leaves
      the inserted key behind).
    - [H5PYDataset.ref_counts] is a [defaultdict(int)]: a finite map whose
      values are either the integer default [0] or a two element list
      [[handle, count]].  Keys are Python objects; the two that occur are
      strings (paths) and [None] (the default state token).
    - An HDF5 file is an ordered list of named columns plus the split
      attributes of its root group; a column is its rows along the first
      dimension together with the remaining dimensions of its shape.
      Files are read-only: the disk is part of the world and no operation
      writes to it.
    - h5py datasets and numpy arrays are both indexed as Python sequences
      of rows ([slice.indices] for slices, wrap-around of negative
      integers, [IndexError] out of range).
    - A view is a record; the methods that assign attributes return the
      updated record.
    - The base class [Dataset] (fuel/datasets/base.py) is not among the
      sources.  Its constructor, its property [sources] and its method
      [filter_sources] are modelled from the specification and marked so.
    - [Hdf5Dataset], the dataset over PyTables nodes of the same file, is
      embedded in the module [Hdf5Dataset]: a PyTables file is a map from
      the groups of the root to their named arrays, and its methods are
      pure functions (it keeps no registry and no handle). *)

From stdpp Require Import gmap strings list fin_maps.

Set Default Proof Using "Type".

(** ** Python values shared by the model *)

Inductive exn : Set :=
| ValueError | TypeError | IndexError | KeyError | NameError | IOError.

(** [slice(start, stop, step)]; a field that is [None] in Python is [None]
    here. *)
Record pyslice : Set := Slice {
  sl_start : option Z;
  sl_stop  : option Z;
  sl_step  : option Z
}.

(** The request values handed to [get_data]. *)
Inductive pyobj : Set :=
| PNone
| PInt (z : Z)
| PStr (s : string)
| PSlice (s : pyslice)
| PList (l : list Z).

Definition is_slice (r : pyobj) : bool :=
  match r with PSlice _ => true | _ => false end.

Definition is_list (r : pyobj) : bool :=
  match r with PList _ => true | _ => false end.

(** [a + b] on two integers-or-None: [None + 1] raises [TypeError]. *)
Definition py_add (a b : option Z) : exn + Z :=
  match a, b with
  | Some x, Some y => inr (x + y)%Z
  | _, _ => inl TypeError
  end.

(** The integers of the model are unbounded, as Python's are.  A resolved
    start that [load] read from the attributes of the file is a numpy
    integer of fixed width, and a sum with it wraps around or raises when
    an operand or the result leaves that width; what is stated about such
    sums is stated for operands and results within 64 bits. *)
Definition fits_int64 (z : Z) : Prop := (- 2 ^ 63 ≤ z ∧ z < 2 ^ 63)%Z.

(** Truthiness of [which_set]: [None] and the empty string are falsy. *)
Definition str_truthy (s : option string) : bool :=
  match s with
  | None => false
  | Some s => negb (String.eqb s "")
  end.

(** Traversal of a list with a function that can raise: the first raise
    wins, as in a list comprehension. *)
Fixpoint traverse {X Y : Type} (f : X -> exn + Y) (l : list X) : exn + list Y :=
  match l with
  | [] => inr []
  | x :: l' =>
      match f x with
      | inl e => inl e
      | inr y =>
          match traverse f l' with
          | inl e => inl e
          | inr ys => inr (y :: ys)
          end
      end
  end.

(** ** Indexing a sequence of rows *)

Section H5PY.
Context {A : Type}.

(** One bound of [slice.indices(len)] (CPython's slice adjustment). *)
Definition adjust_index (len lower upper i : Z) : Z :=
  if (i <? 0)%Z
  then (if (i + len <? lower)%Z then lower else i + len)%Z
  else (if (upper <? i)%Z then upper else i).

(** [slice.indices(len)]: [(start, stop, step)], [ValueError] for a zero
    step. *)
Definition slice_indices (len : Z) (s : pyslice) : exn + (Z * Z * Z) :=
  let step := default 1%Z (sl_step s) in
  if (step =? 0)%Z then inl ValueError else
  let neg := (step <? 0)%Z in
  let lower := if neg then (-1)%Z else 0%Z in
  let upper := if neg then (len - 1)%Z else len in
  let start := match sl_start s with
               | None => if neg then upper else lower
               | Some i => adjust_index len lower upper i
               end in
  let stop := match sl_stop s with
              | None => if neg then lower else upper
              | Some i => adjust_index len lower upper i
              end in
  inr (start, stop, step).

(** Number of elements of [range(start, stop, step)]. *)
Definition range_len (start stop step : Z) : nat :=
  if (0 <? step)%Z
  then (if (start <? stop)%Z
        then Z.to_nat ((stop - start - 1) / step + 1) else 0)
  else (if (stop <? start)%Z
        then Z.to_nat ((start - stop - 1) / (- step) + 1) else 0).

(** The rows at positions [pos], [pos + step], ... ([n] of them). *)
Fixpoint pick (rows : list A) (pos step : Z) (n : nat) : list A :=
  match n with
  | O => []
  | S n' =>
      match rows !! Z.to_nat pos with
      | Some a => a :: pick rows (pos + step)%Z step n'
      | None => []
      end
  end.

(** [rows[s]] for a slice [s]. *)
Definition getslice (rows : list A) (s : pyslice) : exn + list A :=
  match slice_indices (Z.of_nat (length rows)) s with
  | inl e => inl e
  | inr (start, stop, step) =>
      inr (pick rows start step (range_len start stop step))
  end.

(** [rows[i]] for an integer [i]. *)
Definition getrow (rows : list A) (i : Z) : exn + A :=
  let len := Z.of_nat (length rows) in
  let j := if (i <? 0)%Z then (i + len)%Z else i in
  if (j <? 0)%Z then inl IndexError
  else match rows !! Z.to_nat j with
       | Some a => inr a
       | None => inl IndexError
       end.

(** What indexing an array returns: a sub-array of rows, one row, or
    (for [None], numpy's new axis) the whole array under one more
    dimension. *)
Inductive item : Type :=
| Rows (l : list A)
| Row (a : A)
| NewAxis (l : list A).

(** [rows[request]]. *)
Definition getitem (rows : list A) (request : pyobj) : exn + item :=
  match request with
  | PSlice s =>
      match getslice rows s with
      | inl e => inl e
      | inr l => inr (Rows l)
      end
  | PList idx =>
      match traverse (getrow rows) idx with
      | inl e => inl e
      | inr l => inr (Rows l)
      end
  | PInt i =>
      match getrow rows i with
      | inl e => inl e
      | inr a => inr (Row a)
      end
  | PNone => inr (NewAxis rows)
  | PStr _ => inl IndexError
  end.

(** ** The file on disk *)

(** A data source of the root group: [shape = (len(rows),) + inner]. *)
Record column : Type := Column {
  rows : list A;
  inner_shape : list Z
}.

Definition shape0 (c : column) : Z := Z.of_nat (length (rows c)).

Record h5file : Type := H5File {
  columns : list (string * column);
  attrs : gmap string (Z * Z)
}.

(** An open [h5py.File]: the name and driver it was opened with and the
    (read-only) contents it gives access to. *)
Record handle : Type := Handle {
  h_name : string;
  h_driver : option string;
  h_file : h5file
}.

Definition keys (h : handle) : list string := (columns (h_file h)).*1.
Definition values (h : handle) : list column := (columns (h_file h)).*2.
Definition items (h : handle) : list (string * column) := columns (h_file h).

(** ** The world: registry, disk and the files opened and closed *)

(** A value stored in [ref_counts]: the [int] default or
    [[handle, count]]. *)
Inductive slot : Type :=
| Zero
| Entry (h : handle) (count : Z).

(** [bool(value)]: [0] is falsy, a two element list is truthy whatever
    it holds. *)
Definition truthy (s : slot) : bool :=
  match s with Zero => false | Entry _ _ => true end.

(** The files opened by [h5py.File] and closed by [File.close], in
    order.  Nothing in the module reaches a [close()]: the only call sits
    in a branch of [_out_of_memory_close] that cannot run. *)
Inductive event : Set :=
| EvOpen (name : string)
| EvClose (name : string).

Record world : Type := World {
  ref_counts : gmap (option string) slot;
  disk : gmap string h5file;
  trace : list event
}.

Definition set_ref_counts (rc : gmap (option string) slot) (w : world) : world :=
  World rc (disk w) (trace w).

Definition log (e : event) (w : world) : world :=
  World (ref_counts w) (disk w) (trace w ++ [e]).

(** ** The monad of computations over the world *)

Definition M (X : Type) : Type := world -> (exn + X) * world.

Definition ret {X} (x : X) : M X := fun w => (inr x, w).

Definition raise {X} (e : exn) : M X := fun w => (inl e, w).

Definition bind {X Y} (k : X -> M Y) (m : M X) : M Y :=
  fun w =>
    match m w with
    | (inl e, w') => (inl e, w')
    | (inr x, w') => k x w'
    end.

#[global] Instance M_ret : MRet M := @ret.
#[global] Instance M_bind : MBind M := @bind.

Definition lift {X} (r : exn + X) : M X :=
  match r with inl e => raise e | inr x => ret x end.

(** ** H5PYDataset *)

(** *** The registry [H5PYDataset.ref_counts] *)

(** [ref_counts[k]] on a [defaultdict(int)]: a missing key is inserted
    with the value [0], which is returned. *)
Definition rc_getitem (k : option string) : M slot :=
  fun w =>
    match ref_counts w !! k with
    | Some s => (inr s, w)
    | None => (inr Zero, set_ref_counts (<[k := Zero]> (ref_counts w)) w)
    end.

(** [ref_counts[k] = v]. *)
Definition rc_setitem (k : option string) (v : slot) : M unit :=
  fun w => (inr tt, set_ref_counts (<[k := v]> (ref_counts w)) w).

(** [ref_counts.keys()]. *)
Definition rc_keys : M (list (option string)) :=
  fun w => (inr (elements (dom (ref_counts w))), w).

(** [value[0]]: an [int] is not subscriptable. *)
Definition subscript0 (s : slot) : M handle :=
  match s with
  | Zero => raise TypeError
  | Entry h _ => ret h
  end.

(** [h5py.File(name=name, mode="r", driver=driver)]. *)
Definition h5py_File (name : option string) (drv : option string) : M handle :=
  fun w =>
    match name with
    | None => (inl TypeError, w)
    | Some n =>
        match disk w !! n with
        | None => (inl IOError, w)
        | Some f => (inr (Handle n drv f), log (EvOpen n) w)
        end
    end.

(** *** The view *)

(** The attributes of an [H5PYDataset].  [_sources] is the attribute of
    the base class behind [sources]; [_provides_sources], [num_examples]
    and [data_sources] are [None] while the attribute is not set, and
    [data_sources] also once a streamed [load] has set it to [None]. *)
Record view : Type := View {
  path : string;
  which_set : option string;
  subset : pyslice;
  load_in_memory : bool;
  driver : option string;
  _sources : option (list string);
  _provides_sources : option (list string);
  num_examples : option Z;
  data_sources : option (list (list A))
}.

Definition set_sources (srcs : option (list string)) (v : view) : view :=
  View (path v) (which_set v) (subset v) (load_in_memory v) (driver v)
       srcs (_provides_sources v) (num_examples v) (data_sources v).

Definition set_provides (ps : list string) (v : view) : view :=
  View (path v) (which_set v) (subset v) (load_in_memory v) (driver v)
       (_sources v) (Some ps) (num_examples v) (data_sources v).

Definition set_subset (s : pyslice) (v : view) : view :=
  View (path v) (which_set v) s (load_in_memory v) (driver v)
       (_sources v) (_provides_sources v) (num_examples v) (data_sources v).

Definition set_num_examples (n : Z) (v : view) : view :=
  View (path v) (which_set v) (subset v) (load_in_memory v) (driver v)
       (_sources v) (_provides_sources v) (Some n) (data_sources v).

Definition set_data_sources (d : option (list (list A))) (v : view) : view :=
  View (path v) (which_set v) (subset v) (load_in_memory v) (driver v)
       (_sources v) (_provides_sources v) (num_examples v) d.

(** [_get_file_id]: the registry key equal to [self.path] if there is
    one, else [self.path]; the one element unpacking raises
    [ValueError] on more than one match. *)
Definition _get_file_id (v : view) : M (option string) :=
  ks ← rc_keys;
  match filter (λ f, f = Some (path v)) ks with
  | [] => ret (Some (path v))
  | [f] => ret f
  | _ => raise ValueError
  end.

(** [_out_of_memory_open]. *)
Definition _out_of_memory_open (v : view) : M (option string) :=
  file_id ← _get_file_id v;
  s ← rc_getitem file_id;
  (if negb (truthy s)
   then handle ← h5py_File file_id (driver v);
        rc_setitem file_id (Entry handle 1)
   else s' ← rc_getitem file_id;
        handle ← subscript0 s';
        ret tt);;
  ret file_id.

(** [ref_counts[state][1] -= 1]. *)
Definition decrement (state : option string) : M unit :=
  s ← rc_getitem state;
  match s with
  | Zero => raise TypeError
  | Entry h n => rc_setitem state (Entry h (n - 1))
  end.

(** [_out_of_memory_close].  The guarded branch names [H5PyDataset],
    which is not defined in the module, so entering it raises
    [NameError] before [close()] or [del] run. *)
Definition _out_of_memory_close (state : option string) : M unit :=
  decrement state;;
  s ← rc_getitem state;
  if negb (truthy s)
  then raise NameError
  else ret tt.

(** [open] and [close]. *)
Definition open (v : view) : M (option string) :=
  if load_in_memory v then ret None else _out_of_memory_open v.

Definition close (v : view) (state : option string) : M unit :=
  if negb (load_in_memory v) then _out_of_memory_close state else ret tt.

(** The registry query written [H5PYDataset.ref_counts[state][0]] in
    [load], [provides_sources] and [_out_of_memory_get_data]. *)
Definition get_handle (state : option string) : M handle :=
  s ← rc_getitem state;
  subscript0 s.

(** The property [provides_sources], cached in [_provides_sources]. *)
Definition provides_sources (v : view) : M (view * list string) :=
  match _provides_sources v with
  | Some ps => ret (v, ps)
  | None =>
      ref ← _out_of_memory_open v;
      handle ← get_handle ref;
      let v' := set_provides (keys handle) v in
      _out_of_memory_close ref;;
      ret (v', keys handle)
  end.

(** Modelled from the spec: the property [Dataset.sources] of the base
    class (fuel/datasets/base.py, not among the sources).  The view owns
    "an ordered set of exposed column names"; they are the names
    requested at construction, and every column the file provides when
    none was requested. *)
Definition sources (v : view) : M (view * list string) :=
  match _sources v with
  | Some ss => ret (v, ss)
  | None => provides_sources v
  end.

(** Modelled from the spec: [Dataset.filter_sources] of the base class
    (fuel/datasets/base.py, not among the sources), the "default source
    filtering" that "filters results to the requested columns".  Its
    argument holds one result per provided column, in the order of
    [provides_sources]; the results of the requested columns are kept. *)
Definition filter_sources {X : Type} (v : view) (data : list X) : M (view * list X) :=
  '(v1, ps) ← provides_sources v;
  '(v2, ss) ← sources v1;
  ret (v2, (filter (λ ds, ds.2 ∈ ss) (zip data ps)).*1).

(** [any(s[0] != shapes[0][0] for s in shapes)]. *)
Definition lengths_differ (shapes : list Z) : bool :=
  match shapes with
  | [] => false
  | s0 :: _ => existsb (λ s, negb (s =? s0)%Z) shapes
  end.

(** [step in (1, None)]. *)
Definition step_ok (step : option Z) : bool :=
  match step with
  | None => true
  | Some k => (k =? 1)%Z
  end.

(** [handle.attrs[which_set] if which_set else (0, shapes[0][0])]. *)
Definition base_range (v : view) (h : handle) (shapes : list Z) : exn + (Z * Z) :=
  if str_truthy (which_set v)
  then match which_set v with
       | Some s =>
           match attrs (h_file h) !! s with
           | Some r => inr r
           | None => inl KeyError
           end
       | None => inl KeyError
       end
  else match shapes with
       | s0 :: _ => inr (0%Z, s0)
       | [] => inl IndexError
       end.

(** The list comprehension that fills [data_sources] in memory.
    [self.sources] is evaluated at the first item, if there is one. *)
Definition materialise (v : view) (h : handle) : M view :=
  match items h with
  | [] => ret (set_data_sources (Some []) v)
  | _ =>
      '(v', ss) ← sources v;
      ds ← lift (traverse (λ it : string * column, getslice (rows it.2) (subset v'))
                          (filter (λ it, it.1 ∈ ss) (items h)));
      ret (set_data_sources (Some ds) v')
  end.

(** [load]. *)
Definition load (v : view) : M view :=
  ref ← _out_of_memory_open v;
  handle ← get_handle ref;
  let shapes := shape0 <$> values handle in
  if lengths_differ shapes then raise ValueError else
  if negb (step_ok (sl_step (subset v))) then raise ValueError else
  '(start, stop) ← lift (base_range v handle shapes);
  let start' := default start (sl_start (subset v)) in
  let stop' := default stop (sl_stop (subset v)) in
  let v1 := set_subset (Slice (Some start') (Some stop') (sl_step (subset v))) v in
  let v2 := set_num_examples (stop' - start')%Z v1 in
  v3 ← (if load_in_memory v2
        then materialise v2 handle
        else ret (set_data_sources None v2));
  _out_of_memory_close ref;;
  ret v3.

(** Modelled from the spec: the constructor [Dataset.__init__] of the
    base class (fuel/datasets/base.py, not among the sources), which
    receives the keyword arguments of [H5PYDataset.__init__]; it records
    the column names requested as [sources], if any. *)
Definition Dataset_init (srcs : option (list string)) (v : view) : M view :=
  ret (set_sources srcs v).

(** [__init__]: [subset if subset else slice(None, None, None)] (a slice
    object is always truthy), the base class constructor, then [load]. *)
Definition init (p : string) (ws : option string) (sub : option pyslice)
    (in_memory : bool) (drv : option string) (srcs : option (list string)) : M view :=
  v ← Dataset_init srcs
        (View p ws (default (Slice None None None) sub) in_memory drv
              None None None None);
  load v.

(** [_in_memory_get_data]. *)
Definition _in_memory_get_data (v : view) (state : option string) (request : pyobj)
    : M (view * list item) :=
  match state, request with
  | Some _, _ | _, PNone => raise ValueError
  | None, _ =>
      match data_sources v with
      | None => raise TypeError
      | Some ds =>
          data ← lift (traverse (λ d, getitem d request) ds);
          filter_sources v data
      end
  end.

(** The translation of a caller-relative request at the head of
    [_out_of_memory_get_data]. *)
Definition translate (v : view) (request : pyobj) : M pyobj :=
  match request with
  | PSlice s =>
      start ← lift (py_add (sl_start s) (sl_start (subset v)));
      stop ← lift (py_add (sl_stop s) (sl_start (subset v)));
      ret (PSlice (Slice (Some start) (Some stop) (sl_step s)))
  | PList l =>
      idx ← lift (traverse (λ i, py_add (Some i) (sl_start (subset v))) l);
      ret (PList idx)
  | _ => raise ValueError
  end.

(** [_out_of_memory_get_data]. *)
Definition _out_of_memory_get_data (v : view) (state : option string) (request : pyobj)
    : M (view * list item) :=
  request' ← translate v request;
  handle ← get_handle state;
  data ← lift (traverse (λ c, getitem (rows c) request') (values handle));
  filter_sources v data.

(** [get_data]. *)
Definition get_data (v : view) (state : option string) (request : pyobj)
    : M (view * list item) :=
  if load_in_memory v
  then _in_memory_get_data v state request
  else _out_of_memory_get_data v state request.

(** [n] acquisitions by one view, collecting the state tokens, and the
    release of a list of tokens; both stop at the first raise. *)
Fixpoint opens (v : view) (n : nat) : M (list (option string)) :=
  match n with
  | O => ret []
  | S n' =>
      t ← _out_of_memory_open v;
      ts ← opens v n';
      ret (t :: ts)
  end.

Fixpoint closes (ts : list (option string)) : M unit :=
  match ts with
  | [] => ret tt
  | t :: ts' => _out_of_memory_close t;; closes ts'
  end.

(** The registry holds an open handle [h] under the path [p]. *)
Definition registered (w : world) (p : string) (h : handle) : Prop :=
  ∃ n, ref_counts w !! Some p = Some (Entry h n).

(** The world after [h5py.File] opened [p] and the registry recorded it. *)
Definition opened_world (p : string) (drv : option string) (fl : h5file)
    (w : world) : world :=
  World (<[Some p := Entry (Handle p drv fl) 1]> (ref_counts w)) (disk w)
        (trace w ++ [EvOpen p]).

(** *** Vocabulary of the statements *)

(** The registry keeps the handle of [p], and neither the disk nor the
    list of opened and closed files changed. *)
Definition settled (p : string) (h : handle) (w w' : world) : Prop :=
  registered w' p h ∧ disk w' = disk w ∧ trace w' = trace w.

(** The file that a view over [p] reads in [w]: the one behind the
    registered handle if there is one, else the one on disk. *)
Definition backing (w : world) (p : string) (fl : h5file) : Prop :=
  match ref_counts w !! Some p with
  | Some (Entry h _) => h_file h = fl
  | _ => disk w !! p = Some fl
  end.

(** The view and the names that [provides_sources] returns. *)
Definition cached (v : view) (h : handle) : view :=
  match _provides_sources v with
  | Some _ => v
  | None => set_provides (keys h) v
  end.

Definition provided (v : view) (h : handle) : list string :=
  default (keys h) (_provides_sources v).

(** The view and the names that [sources] returns. *)
Definition with_sources (v : view) (h : handle) : view :=
  match _sources v with
  | Some _ => v
  | None => cached v h
  end.

Definition exposed (v : view) (h : handle) : list string :=
  match _sources v with
  | Some ss => ss
  | None => provided v h
  end.

(** What [filter_sources] keeps of [data]. *)
Definition kept {X : Type} (v : view) (h : handle) (data : list X) : list X :=
  (filter (λ ds, ds.2 ∈ exposed v h) (zip data (provided v h))).*1.

(** [rows[s]] when the step of [s] is not zero. *)
Definition slice_rows (s : pyslice) (rows : list A) : list A :=
  match getslice rows s with
  | inr l => l
  | inl _ => []
  end.

(** The view that [materialise] returns. *)
Definition materialised (v : view) (h : handle) : view :=
  match items h with
  | [] => set_data_sources (Some []) v
  | _ =>
      set_data_sources
        (Some ((λ it : string * column, slice_rows (subset v) (rows it.2))
                 <$> filter (λ it, it.1 ∈ exposed v h) (items h)))
        (with_sources v h)
  end.

(** The view after the split and the subset are resolved against the
    base range [(a, b)]. *)
Definition resolved (v : view) (a b : Z) : view :=
  let start' := default a (sl_start (subset v)) in
  let stop' := default b (sl_stop (subset v)) in
  set_num_examples (stop' - start')%Z
    (set_subset (Slice (Some start') (Some stop') (sl_step (subset v))) v).

(** The view that [load] returns. *)
Definition load_result (v : view) (h : handle) (a b : Z) : view :=
  if load_in_memory v
  then materialised (resolved v a b) h
  else set_data_sources None (resolved v a b).

End H5PY.

Arguments item : clear implicits.
Arguments column : clear implicits.
Arguments h5file : clear implicits.
Arguments handle : clear implicits.
Arguments slot : clear implicits.
Arguments world : clear implicits.
Arguments M : clear implicits.
Arguments view : clear implicits.

(** ** A sample file: the scenario of the test split

    [features] of shape (100, 784), [targets] of shape (100,) and the root
    attribute [test = [80, 100]].  Rows are numbered, so that a result
    shows which rows it holds. *)

Definition sample_features : column Z :=
  Column (Z.of_nat <$> seq 0 100) [784%Z].

Definition sample_targets : column Z :=
  Column ((λ n, 1000 + Z.of_nat n)%Z <$> seq 0 100) [].

Definition sample_file : h5file Z :=
  H5File [("features", sample_features); ("targets", sample_targets)]
         {["test" := (80, 100)%Z]}.

Definition sample_world : world Z :=
  World ∅ {["data.h5" := sample_file]} [].

(** A view as [__init__] builds it before [load]. *)
Definition sample_view (in_memory : bool) (srcs : option (list string)) : view Z :=
  View "data.h5" (Some "test") (Slice None None None) in_memory None srcs
       None None None.

(** A view with a subset inside the test split. *)
Definition sample_view_subset : view Z :=
  View "data.h5" (Some "test") (Slice (Some 85%Z) (Some 95%Z) None) false None
       None None None None.

(** A view over the whole file. *)
Definition sample_view_whole : view Z :=
  View "data.h5" None (Slice None None None) false None None None None None.

(** The view and the world that [load] leaves for the sample view in
    memory. *)
Definition sample_loaded : view Z * world Z :=
  match load (sample_view true None) sample_world with
  | (inr v, w) => (v, w)
  | (inl _, w) => (sample_view true None, w)
  end.


(** The view and the world that [load] leaves for the streamed sample
    view. *)
Definition sample_streamed : view Z * world Z :=
  match load (sample_view false None) sample_world with
  | (inr v, w) => (v, w)
  | (inl _, w) => (sample_view false None, w)
  end.

(** ** Sequences of calls and what every world they reach satisfies *)

Section Calls.
Context {A : Type}.

(** A call of the public interface of [H5PYDataset], with its arguments.
    The views are arbitrary records: a program can only pass the views
    that earlier calls returned, which are among them. *)
Inductive call : Type :=
| CallInit (p : string) (ws : option string) (sub : option pyslice)
    (in_memory : bool) (drv : option string) (srcs : option (list string))
| CallLoad (v : view A)
| CallProvidesSources (v : view A)
| CallOpen (v : view A)
| CallClose (v : view A) (state : option string)
| CallGetData (v : view A) (state : option string) (request : pyobj).

(** The world that a computation leaves, whether it returns or raises. *)
Definition after {X : Type} (m : M A X) (w : world A) : world A := (m w).2.

Definition exec (c : call) (w : world A) : world A :=
  match c with
  | CallInit p ws sub in_memory drv srcs => after (init p ws sub in_memory drv srcs) w
  | CallLoad v => after (load v) w
  | CallProvidesSources v => after (provides_sources v) w
  | CallOpen v => after (open v) w
  | CallClose v state => after (close v state) w
  | CallGetData v state request => after (get_data v state request) w
  end.

Definition execs (cs : list call) (w : world A) : world A :=
  foldl (λ w c, exec c w) w cs.

(** A world before any call: nothing registered, nothing opened. *)
Definition fresh_world (d : gmap string (h5file A)) : world A := World ∅ d [].

(** The registry and the list of opened and closed files fit together:
    no file was opened twice, every event is the opening of a file that
    is still registered, and every list entry of the registry sits under
    the path of its handle, holds the file of the disk, was opened, and
    has a count of at most 1. *)
Definition sound (w : world A) : Prop :=
  NoDup (trace w)
  ∧ (∀ e, e ∈ trace w →
       ∃ p h n, e = EvOpen p ∧ ref_counts w !! Some p = Some (Entry h n))
  ∧ (∀ k h n, ref_counts w !! k = Some (Entry h n) →
       ∃ p, k = Some p ∧ h_name h = p ∧ disk w !! p = Some (h_file h)
            ∧ EvOpen p ∈ trace w ∧ (n ≤ 1)%Z).

(** [does m R Q]: from every world [w], [m] leaves a world related to
    [w] by [R], and what it returns, if it returns, satisfies [Q]. *)
Definition does {X : Type} (m : M A X) (R : relation (world A)) (Q : X → Prop)
    : Prop :=
  ∀ w, R w (m w).2 ∧ ∀ x, (m w).1 = inr x → Q x.

(** The two relations used: soundness is kept (and the disk is not
    written), and the registry is left alone outside the keys [ks]. *)
Definition keeps_sound (w w' : world A) : Prop :=
  disk w' = disk w ∧ (sound w → sound w').

Definition outside (ks : list (option string)) (w w' : world A) : Prop :=
  ∀ k, k ∉ ks → ref_counts w' !! k = ref_counts w !! k.

(** The registry keys that a call works on: the path of its view, and
    the state token it is given. *)
Definition keys_of (c : call) : list (option string) :=
  match c with
  | CallInit p _ _ _ _ _ => [Some p]
  | CallLoad v | CallProvidesSources v | CallOpen v => [Some (path v)]
  | CallClose _ state => [state]
  | CallGetData v state _ => [Some (path v); state]
  end.

End Calls.

Arguments call : clear implicits.

(** ** Hdf5Dataset, the dataset over PyTables nodes *)

Module Hdf5Dataset.
Section Model.
Context {A : Type}.

(** What the methods of [Hdf5Dataset] raise: a built-in exception, or
    PyTables' [NoSuchNodeError]. *)
Inductive raised : Set :=
| Builtin (e : exn)
| NoSuchNodeError.

(** A PyTables file: the groups under the root, each with its named
    arrays of rows. *)
Definition tables_file : Type := gmap string (gmap string (list A)).

(** The attributes of an [Hdf5Dataset]; [_sources] is the attribute of
    the base class. *)
Record t : Type := Make {
  sources_in_file : list string;
  provides_sources : list string;
  path : string;
  data_node : string;
  start : Z;
  stop : Z;
  num_examples : Z;
  nodes : option (list (list A));
  _sources : option (list string)
}.

Definition set_nodes (ns : list (list A)) (d : t) : t :=
  Make (sources_in_file d) (provides_sources d) (path d) (data_node d) (start d)
       (stop d) (num_examples d) (Some ns) (_sources d).

Definition set_sources (srcs : list string) (d : t) : t :=
  Make (sources_in_file d) (provides_sources d) (path d) (data_node d) (start d)
       (stop d) (num_examples d) (nodes d) (Some srcs).

(** [[getattr(node, source) for source in names]]: the first missing
    name raises. *)
Fixpoint getattrs (g : gmap string (list A)) (names : list string)
    : raised + list (list A) :=
  match names with
  | [] => inr []
  | s :: names' =>
      match g !! s with
      | None => inl NoSuchNodeError
      | Some n =>
          match getattrs g names' with
          | inl e => inl e
          | inr ns => inr (n :: ns)
          end
      end
  end.

(** [open_file]: the file is opened read-only, the group [data_node] of
    the root is looked up, then the arrays named in [sources_in_file]. *)
Definition open_file (disk : gmap string tables_file) (d : t) (p : string)
    : raised + t :=
  match disk !! p with
  | None => inl (Builtin IOError)
  | Some h5file =>
      match h5file !! data_node d with
      | None => inl NoSuchNodeError
      | Some node =>
          match getattrs node (sources_in_file d) with
          | inl e => inl e
          | inr ns => inr (set_nodes ns d)
          end
      end
  end.

(** [load]. *)
Definition load (disk : gmap string tables_file) (d : t) : raised + t :=
  open_file disk d (path d).

(** Modelled from the spec: the constructor [Dataset.__init__] of the
    base class (fuel/datasets/base.py, not among the sources), called
    with [self.provides_sources]; it records the names it is given as
    the [sources] of the dataset. *)
Definition Dataset_init (srcs : list string) (d : t) : raised + t :=
  inr (set_sources srcs d).

(** [__init__]. *)
Definition init (disk : gmap string tables_file) (sources : list string)
    (start stop : Z) (p : string) (data_node : string)
    (sources_in_file : option (list string)) : raised + t :=
  let d := Make (default sources sources_in_file) sources p data_node start stop
                (stop - start)%Z None None in
  match open_file disk d (path d) with
  | inl e => inl e
  | inr d' => Dataset_init (provides_sources d') d'
  end.

(** The translation at the head of [get_data], done when [self.start] is
    truthy, that is, not zero. *)
Definition shift (d : t) (request : pyobj) : exn + pyobj :=
  if (start d =? 0)%Z then inr request else
  match request with
  | PSlice s =>
      match py_add (sl_start s) (Some (start d)) with
      | inl e => inl e
      | inr a =>
          match py_add (sl_stop s) (Some (start d)) with
          | inl e => inl e
          | inr b => inr (PSlice (Slice (Some a) (Some b) (sl_step s)))
          end
      end
  | PList l =>
      match traverse (λ i, py_add (Some i) (Some (start d))) l with
      | inl e => inl e
      | inr idx => inr (PList idx)
      end
  | _ => inl ValueError
  end.

(** [get_data]; the state is not used. *)
Definition get_data (d : t) (state : option string) (request : pyobj)
    : exn + list (item A) :=
  match shift d request with
  | inl e => inl e
  | inr request' =>
      match nodes d with
      | None => inl TypeError
      | Some ns => traverse (λ node, getitem node request') ns
      end
  end.

End Model.

Arguments t : clear implicits.
Arguments tables_file : clear implicits.
End Hdf5Dataset.

(** A PyTables file with the two arrays of the sample file under the
    group [Data], and a dataset over its rows 80 to 100. *)
Definition sample_tables_disk : gmap string (Hdf5Dataset.tables_file Z) :=
  {["legacy.h5" := {["Data" := {["features" := rows sample_features;
                                 "targets" := rows sample_targets]}]}]}.

(** The legacy dataset over the rows 80 to 100 of that file. *)
Definition sample_legacy : Hdf5Dataset.t Z :=
  match Hdf5Dataset.init sample_tables_disk ["features"; "targets"] 80 100
          "legacy.h5" "Data" None with
  | inr d => d
  | inl _ => Hdf5Dataset.Make [] [] "" "" 0 0 0 None None
  end.

(** The legacy dataset over the whole of that file, with start 0. *)
Definition sample_legacy_whole : Hdf5Dataset.t Z :=
  Hdf5Dataset.Make ["features"; "targets"] ["features"; "targets"] "legacy.h5"
    "Data" 0 100 100 (Some [rows sample_features; rows sample_targets])
    (Some ["features"; "targets"]).

(** A world whose file has columns of different lengths. *)
Definition sample_bad_file : h5file Z :=
  H5File [("features", Column [1; 2; 3]%Z []); ("targets", Column [1; 2]%Z [])] ∅.

Definition sample_bad_world : world Z :=
  World ∅ {["bad.h5" := sample_bad_file]} [].

(** The view and the world that [load] leaves for the streamed view of
    the rows 85 to 95. *)
Definition sample_subset_streamed : view Z * world Z :=
  match load sample_view_subset sample_world with
  | (inr v, w) => (v, w)
  | (inl _, w) => (sample_view_subset, w)
  end.

(** ** Running a computation step by step *)

Section Running.
Context {A : Type}.
Implicit Types (w : world A).

Lemma bind_ok {X Y} (m : M A X) (k : X → M A Y) w x w' :
  m w = (inr x, w') → (m ≫= k) w = k x w'.
Proof. intros H. unfold mbind, M_bind, bind. by rewrite H. Qed.

Lemma bind_err {X Y} (m : M A X) (k : X → M A Y) w e w' :
  m w = (inl e, w') → (m ≫= k) w = (inl e, w').
Proof. intros H. unfold mbind, M_bind, bind. by rewrite H. Qed.

Lemma ret_bind {X Y} (x : X) (k : X → M A Y) w : (ret x ≫= k) w = k x w.
Proof. done. Qed.
End Running.

(** [run H]: one step of a computation whose first action returns, as
    stated by [H]. *)
Tactic Notation "run" uconstr(H) :=
  rewrite (bind_ok _ _ _ _ _ H).
Tactic Notation "run" uconstr(H) "in" hyp(H') :=
  rewrite (bind_ok _ _ _ _ _ H) in H'.

(** ** The registry *)

Section Registry.
Context {A : Type}.
Implicit Types (w : world A) (v : view A) (h : handle A) (fl : h5file A).

Lemma filter_eq_absent {K} `{EqDecision K} (k : K) (l : list K) :
  k ∉ l → filter (λ x, x = k) l = [].
Proof.
  induction l as [|x l IH]; [done|].
  intros Hn. apply not_elem_of_cons in Hn as [Hx Hl].
  rewrite filter_cons. destruct (decide (x = k)); [congruence|auto].
Qed.

Lemma filter_eq_NoDup {K} `{EqDecision K} (k : K) (l : list K) :
  NoDup l → filter (λ x, x = k) l = [] ∨ filter (λ x, x = k) l = [k].
Proof.
  induction 1 as [|x l Hx Hnd IH]; [by left|].
  rewrite filter_cons. destruct (decide (x = k)) as [->|]; [|done].
  right. by rewrite filter_eq_absent.
Qed.

(** Keys of a dict are distinct, so [_get_file_id] is [self.path]. *)
Lemma get_file_id_path v w : _get_file_id v w = (inr (Some (path v)), w).
Proof.
  unfold _get_file_id, rc_keys, mbind, M_bind, bind.
  destruct (filter_eq_NoDup (Some (path v)) (elements (dom (ref_counts w)))) as [-> | ->];
    [apply NoDup_elements| |]; done.
Qed.

Lemma set_ref_counts_id w : set_ref_counts (ref_counts w) w = w.
Proof. by destruct w. Qed.

Lemma rc_getitem_entry k w (s : slot A) :
  ref_counts w !! k = Some s → rc_getitem k w = (inr s, w).
Proof. intros H. unfold rc_getitem. by rewrite H. Qed.

Lemma get_handle_entry k w h n :
  ref_counts w !! k = Some (Entry h n) → get_handle k w = (inr h, w).
Proof.
  intros H. unfold get_handle.
  by run (rc_getitem_entry _ _ _ H).
Qed.

(** A query for a key that has no list entry raises [TypeError] (the
    [int] default is not subscriptable) and leaves that default in the
    registry. *)
Lemma get_handle_unregistered k w :
  ref_counts w !! k = None ∨ ref_counts w !! k = Some Zero →
  get_handle k w = (inl TypeError, set_ref_counts (<[k := Zero]> (ref_counts w)) w).
Proof.
  intros [H | H]; unfold get_handle, mbind, M_bind, bind, rc_getitem;
    rewrite H; simpl; [done|].
  by rewrite insert_id, set_ref_counts_id.
Qed.

Lemma open_fresh v w fl :
  ref_counts w !! Some (path v) = None ∨ ref_counts w !! Some (path v) = Some Zero →
  disk w !! path v = Some fl →
  _out_of_memory_open v w
  = (inr (Some (path v)), opened_world (path v) (driver v) fl w).
Proof.
  intros Hrc Hd. unfold _out_of_memory_open.
  run (get_file_id_path v w).
  unfold mbind, M_bind, bind, rc_getitem, rc_setitem, h5py_File, opened_world,
    mret, M_ret, ret.
  destruct Hrc as [-> | ->]; simpl; rewrite Hd; simpl; [|done].
  by rewrite insert_insert_eq.
Qed.

Lemma open_existing v w h n :
  ref_counts w !! Some (path v) = Some (Entry h n) →
  _out_of_memory_open v w = (inr (Some (path v)), w).
Proof.
  intros Hrc. unfold _out_of_memory_open.
  run (get_file_id_path v w).
  run (rc_getitem_entry _ _ _ Hrc). simpl.
  unfold mbind, M_bind, bind at 1.
  unfold mbind, M_bind, bind at 1.
  by rewrite (rc_getitem_entry _ _ _ Hrc).
Qed.

Lemma close_entry k w h n :
  ref_counts w !! k = Some (Entry h n) →
  _out_of_memory_close k w
  = (inr tt, set_ref_counts (<[k := Entry h (n - 1)%Z]> (ref_counts w)) w).
Proof.
  intros Hrc. unfold _out_of_memory_close, decrement.
  unfold mbind, M_bind, bind, rc_getitem, rc_setitem. rewrite Hrc. simpl.
  by rewrite lookup_insert_eq.
Qed.

Lemma opens_existing v w h c n :
  ref_counts w !! Some (path v) = Some (Entry h c) →
  opens v n w = (inr (replicate n (Some (path v))), w).
Proof.
  intros Hrc. induction n as [|n IH]; [done|]. simpl.
  run (open_existing _ _ _ _ Hrc).
  by run IH.
Qed.

Lemma closes_entry k n : ∀ w h c,
  ref_counts w !! k = Some (Entry h c) →
  closes (replicate n k) w
  = (inr tt, set_ref_counts (<[k := Entry h (c - Z.of_nat n)%Z]> (ref_counts w)) w).
Proof.
  induction n as [|n IH]; intros w h c Hrc; simpl.
  - rewrite Z.sub_0_r, insert_id, set_ref_counts_id; done.
  - run (close_entry _ _ _ _ Hrc).
    rewrite (IH _ h (c - 1)%Z) by (simpl; apply lookup_insert_eq).
    simpl. rewrite insert_insert_eq. unfold set_ref_counts. simpl.
    do 4 f_equal. lia.
Qed.

(** C1 (what the code does): [n >= 1] acquisitions of a path that was
    not registered, followed by the release of the [n] tokens, run
    without a raise; the registry still holds the entry of the path,
    with count [1 - n] (zero for [n = 1]), and the file was opened once
    and never closed. *)
Theorem acquire_release_keeps_entry v w fl (n : nat) :
  1 ≤ n →
  ref_counts w !! Some (path v) = None →
  disk w !! path v = Some fl →
  ∃ w', (ts ← opens v n; closes ts) w = (inr tt, w')
        ∧ ref_counts w' !! Some (path v)
          = Some (Entry (Handle (path v) (driver v) fl) (1 - Z.of_nat n)%Z)
        ∧ trace w' = trace w ++ [EvOpen (path v)].
Proof.
  intros Hn Hrc Hd. destruct n as [|n]; [lia|].
  assert (Hreg : ref_counts (opened_world (path v) (driver v) fl w) !! Some (path v)
                 = Some (Entry (Handle (path v) (driver v) fl) 1)).
  { simpl. apply lookup_insert_eq. }
  assert (Hopens : opens v (S n) w
                   = (inr (replicate (S n) (Some (path v))),
                      opened_world (path v) (driver v) fl w)).
  { simpl opens.
    run (open_fresh _ _ _ (or_introl Hrc) Hd).
    by run (opens_existing _ _ _ _ n Hreg). }
  eexists. run Hopens.
  rewrite (closes_entry _ _ _ _ _ Hreg).
  split; [done|]. simpl. by rewrite lookup_insert_eq.
Qed.

(** C2 (what the code does): when two views over one path, not yet
    registered, both acquire it, the file is opened once and both get
    the path as token, but the count of the entry stays 1: the branch
    of [_out_of_memory_open] for an existing entry reads the handle and
    does not increment. *)
Theorem open_twice_count_one v1 v2 w fl :
  path v2 = path v1 →
  ref_counts w !! Some (path v1) = None →
  disk w !! path v1 = Some fl →
  ∃ w', (t1 ← _out_of_memory_open v1; t2 ← _out_of_memory_open v2; mret (t1, t2)) w
        = (inr (Some (path v1), Some (path v1)), w')
        ∧ ref_counts w' !! Some (path v1)
          = Some (Entry (Handle (path v1) (driver v1) fl) 1)
        ∧ trace w' = trace w ++ [EvOpen (path v1)].
Proof.
  intros Hp Hrc Hd. eexists.
  run (open_fresh _ _ _ (or_introl Hrc) Hd).
  assert (Hreg : ref_counts (opened_world (path v1) (driver v1) fl w) !! Some (path v2)
                 = Some (Entry (Handle (path v1) (driver v1) fl) 1)).
  { rewrite Hp. simpl. apply lookup_insert_eq. }
  run (open_existing _ _ _ _ Hreg).
  rewrite Hp in *. done.
Qed.

(** C3 (what the code does): after two views over one path have both
    acquired and both released it, the registry query for the path
    still returns the handle: no release removes the entry. *)
Theorem query_after_both_closed v1 v2 w fl :
  path v2 = path v1 →
  ref_counts w !! Some (path v1) = None →
  disk w !! path v1 = Some fl →
  ∃ w', (t1 ← _out_of_memory_open v1; t2 ← _out_of_memory_open v2;
         _out_of_memory_close t1;; _out_of_memory_close t2;;
         get_handle (Some (path v1))) w
        = (inr (Handle (path v1) (driver v1) fl), w')
        ∧ ref_counts w' !! Some (path v1)
          = Some (Entry (Handle (path v1) (driver v1) fl) (-1))
        ∧ trace w' = trace w ++ [EvOpen (path v1)].
Proof.
  intros Hp Hrc Hd. eexists.
  run (open_fresh _ _ _ (or_introl Hrc) Hd).
  assert (Hreg : ref_counts (opened_world (path v1) (driver v1) fl w) !! Some (path v2)
                 = Some (Entry (Handle (path v1) (driver v1) fl) 1)).
  { rewrite Hp. simpl. apply lookup_insert_eq. }
  run (open_existing _ _ _ _ Hreg).
  rewrite Hp in *.
  run (close_entry _ _ _ _ Hreg).
  erewrite bind_ok by (apply close_entry; simpl; apply lookup_insert_eq).
  erewrite get_handle_entry by (simpl; apply lookup_insert_eq).
  split; [done|]. simpl. by rewrite lookup_insert_eq.
Qed.

End Registry.

(** ** Slices with unit step *)

Section Slicing.
Context {A : Type}.
Implicit Types (rows : list A).

Lemma pick_unit rows (n : nat) : ∀ pos : Z,
  (0 ≤ pos)%Z → pick rows pos 1 n = take n (drop (Z.to_nat pos) rows).
Proof.
  induction n as [|n IH]; intros pos Hpos; simpl; [done|].
  destruct (rows !! Z.to_nat pos) as [a|] eqn:Hl.
  - rewrite (drop_S _ _ _ Hl). simpl. f_equal.
    rewrite IH by lia. do 2 f_equal. lia.
  - apply lookup_ge_None in Hl. by rewrite drop_ge.
Qed.

(** [rows[a:b]] for bounds that are not negative. *)
Lemma getslice_nonneg rows (a b : Z) step :
  step_ok step = true → (0 ≤ a)%Z → (0 ≤ b)%Z →
  getslice rows (Slice (Some a) (Some b) step)
  = inr (take (Z.to_nat b - Z.to_nat a) (drop (Z.to_nat a) rows)).
Proof.
  intros Hstep Ha Hb. unfold getslice, slice_indices. simpl.
  assert (default 1%Z step = 1%Z) as ->.
  { destruct step as [k|]; simpl in *; [|done]. by apply Z.eqb_eq in Hstep. }
  simpl. f_equal. unfold adjust_index, range_len.
  set (len := Z.of_nat (length rows)).
  assert (Hlen : length rows = Z.to_nat len) by lia.
  repeat case_match; simpl; try lia;
    repeat match goal with
           | H : (_ <? _)%Z = true |- _ => apply Z.ltb_lt in H
           | H : (_ <? _)%Z = false |- _ => apply Z.ltb_ge in H
           end; try lia.
  all: rewrite ?pick_unit by lia.
  all: rewrite ?Z.div_1_r.
  all: try (rewrite (drop_ge rows (Z.to_nat a)) by lia; by rewrite ?drop_all, ?take_nil).
  all: try (rewrite drop_all; by rewrite ?take_nil).
  all: try (f_equal; lia).
  all: try (rewrite !take_ge by (rewrite length_drop; lia); done).
  all: try (replace (Z.to_nat b - Z.to_nat a) with 0 by lia; done).
Qed.

(** Slicing a slice: the rows [i:j] of [rows[s:e]] are the rows
    [i+s : j+s] of [rows]. *)
Lemma take_drop_window rows (s e i j : nat) :
  i ≤ j → j ≤ e - s →
  take (j - i) (drop i (take (e - s) (drop s rows)))
  = take (j + s - (i + s)) (drop (i + s) rows).
Proof.
  intros Hij Hj.
  rewrite skipn_firstn_comm, take_take, drop_drop.
  f_equal; [lia | f_equal; lia].
Qed.
End Slicing.

(** ** Running the operations of a view *)

Section Views.
Context {A : Type}.
Implicit Types (w : world A) (v : view A) (h : handle A) (fl : h5file A).

Lemma settled_refl p h w : registered w p h → settled p h w w.
Proof. done. Qed.

Lemma settled_trans p h w1 w2 w3 :
  settled p h w1 w2 → settled p h w2 w3 → settled p h w1 w3.
Proof. intros (? & ? & ?) (? & ? & ?). repeat split; [done|congruence..]. Qed.

Lemma open_registered v w h :
  registered w (path v) h →
  _out_of_memory_open v w = (inr (Some (path v)), w).
Proof. intros [n Hn]. by eapply open_existing. Qed.

Lemma get_handle_registered p w h :
  registered w p h → get_handle (Some p) w = (inr h, w).
Proof. intros [n Hn]. by eapply get_handle_entry. Qed.

Lemma close_registered p w h :
  registered w p h →
  ∃ w', _out_of_memory_close (Some p) w = (inr tt, w') ∧ settled p h w w'.
Proof.
  intros [n Hn]. eexists. split; [by apply close_entry|].
  split; [|done]. exists (n - 1)%Z. simpl. apply lookup_insert_eq.
Qed.

Lemma provides_sources_run v w h :
  registered w (path v) h →
  ∃ w', provides_sources v w = (inr (cached v h, provided v h), w')
        ∧ settled (path v) h w w'.
Proof.
  intros Hreg. unfold provides_sources, cached, provided.
  destruct (_provides_sources v) as [ps|]; simpl.
  - by exists w.
  - run (open_registered _ _ _ Hreg).
    run (get_handle_registered _ _ _ Hreg).
    destruct (close_registered _ _ _ Hreg) as (w' & Hc & Hs).
    exists w'. by run Hc.
Qed.

Lemma sources_run v w h :
  registered w (path v) h →
  ∃ w', sources v w = (inr (with_sources v h, exposed v h), w')
        ∧ settled (path v) h w w'.
Proof.
  intros Hreg. unfold sources, with_sources, exposed.
  destruct (_sources v) as [ss|]; [by exists w|].
  by apply provides_sources_run.
Qed.

Lemma path_cached v h : path (cached v h) = path v.
Proof. unfold cached. by destruct (_provides_sources v). Qed.

Lemma exposed_cached v h : exposed (cached v h) h = exposed v h.
Proof.
  destruct v as [? ? ? ? ? srcs cache ? ?].
  unfold exposed, provided, cached. simpl. by destruct cache, srcs.
Qed.

Lemma with_sources_cached v h : with_sources (cached v h) h = cached v h.
Proof.
  destruct v as [? ? ? ? ? srcs cache ? ?].
  unfold with_sources, cached. simpl. by destruct cache, srcs.
Qed.

Lemma filter_sources_run {X : Type} v w h (data : list X) :
  registered w (path v) h →
  ∃ w', filter_sources v data w = (inr (cached v h, kept v h data), w')
        ∧ settled (path v) h w w'.
Proof.
  intros Hreg. unfold filter_sources.
  destruct (provides_sources_run _ _ _ Hreg) as (w1 & H1 & Hs1).
  run H1. simpl.
  assert (Hreg1 : registered w1 (path (cached v h)) h) by (rewrite path_cached; apply Hs1).
  destruct (sources_run _ _ _ Hreg1) as (w2 & H2 & Hs2).
  run H2. simpl.
  exists w2. rewrite with_sources_cached, exposed_cached.
  rewrite path_cached in Hs2.
  split; [done|]. by eapply settled_trans.
Qed.

(** [traverse] of a function that never raises is [map]. *)
Lemma traverse_total {X Y : Type} (f : X → exn + Y) (g : X → Y) (l : list X) :
  (∀ x, x ∈ l → f x = inr (g x)) → traverse f l = inr (g <$> l).
Proof.
  induction l as [|x l IH]; intros Hf; simpl; [done|].
  rewrite (Hf x) by apply list_elem_of_here.
  rewrite IH; [done|]. intros y Hy. apply Hf. by apply list_elem_of_further.
Qed.

Lemma getslice_total (rows : list A) s :
  sl_step s ≠ Some 0%Z → getslice rows s = inr (slice_rows s rows).
Proof.
  intros Hs. unfold slice_rows, getslice, slice_indices.
  destruct (default 1%Z (sl_step s) =? 0)%Z eqn:E; [|done].
  apply Z.eqb_eq in E. destruct (sl_step s); simpl in E; [congruence|done].
Qed.

Lemma step_ok_nonzero step : step_ok step = true → step ≠ Some 0%Z.
Proof. destruct step as [k|]; simpl; [|done]. intros ->%Z.eqb_eq. done. Qed.

Lemma subset_with_sources v h : subset (with_sources v h) = subset v.
Proof.
  unfold with_sources, cached.
  by destruct (_sources v), (_provides_sources v).
Qed.

Lemma materialise_run v w h :
  registered w (path v) h →
  sl_step (subset v) ≠ Some 0%Z →
  ∃ w', materialise v h w = (inr (materialised v h), w')
        ∧ settled (path v) h w w'.
Proof.
  intros Hreg Hstep. unfold materialise, materialised.
  destruct (items h) as [|it its] eqn:Hit; [by exists w|].
  destruct (sources_run _ _ _ Hreg) as (w1 & H1 & Hs1).
  run H1. simpl.
  exists w1. split; [|done].
  rewrite subset_with_sources.
  erewrite traverse_total; [done|].
  intros x _. by apply getslice_total.
Qed.

Lemma load_run v w w1 h (a b : Z) :
  _out_of_memory_open v w = (inr (Some (path v)), w1) →
  registered w1 (path v) h →
  lengths_differ (shape0 <$> values h) = false →
  step_ok (sl_step (subset v)) = true →
  base_range v h (shape0 <$> values h) = inr (a, b) →
  ∃ w', load v w = (inr (load_result v h a b), w')
        ∧ settled (path v) h w1 w'.
Proof.
  intros Hopen Hreg Hlen Hstep Hbase. unfold load, load_result.
  run Hopen.
  run (get_handle_registered _ _ _ Hreg).
  rewrite Hlen, Hstep, Hbase. simpl.
  rewrite ret_bind.
  fold (resolved v a b).
  change (load_in_memory (resolved v a b)) with (load_in_memory v).
  destruct (load_in_memory v).
  - destruct (materialise_run (resolved v a b) w1 h Hreg) as (w2 & H2 & Hs2).
    { simpl. by apply step_ok_nonzero. }
    run H2.
    destruct (close_registered (path v) w2 h) as (w3 & H3 & Hs3); [apply Hs2|].
    run H3. exists w3. split; [done|].
    by eapply settled_trans.
  - rewrite ret_bind.
    destruct (close_registered (path v) w1 h Hreg) as (w3 & H3 & Hs3).
    run H3. by exists w3.
Qed.

Lemma open_backing v w fl :
  backing w (path v) fl →
  ∃ w1 h, _out_of_memory_open v w = (inr (Some (path v)), w1)
          ∧ registered w1 (path v) h ∧ h_file h = fl
          ∧ disk w1 = disk w.
Proof.
  unfold backing. intros Hb.
  destruct (ref_counts w !! Some (path v)) as [[|h n]|] eqn:Hrc.
  - exists (opened_world (path v) (driver v) fl w), (Handle (path v) (driver v) fl).
    rewrite (open_fresh _ _ _ (or_intror Hrc) Hb).
    split; [done|]. split; [|done]. eexists. simpl. apply lookup_insert_eq.
  - exists w, h. rewrite (open_existing _ _ _ _ Hrc). split; [done|].
    split; [by exists n|done].
  - exists (opened_world (path v) (driver v) fl w), (Handle (path v) (driver v) fl).
    rewrite (open_fresh _ _ _ (or_introl Hrc) Hb).
    split; [done|]. split; [|done]. eexists. simpl. apply lookup_insert_eq.
Qed.
End Views.

(** ** Split resolution in [load] *)

Section Load.
Context {A : Type}.
Implicit Types (w : world A) (v : view A) (h : handle A) (fl : h5file A).

Lemma subset_load_result v h (a b : Z) :
  subset (load_result v h a b)
  = Slice (Some (default a (sl_start (subset v))))
          (Some (default b (sl_stop (subset v)))) (sl_step (subset v)).
Proof.
  unfold load_result, materialised, with_sources, cached, resolved.
  repeat case_match; done.
Qed.

Lemma num_examples_load_result v h (a b : Z) :
  num_examples (load_result v h a b)
  = Some (default b (sl_stop (subset v)) - default a (sl_start (subset v)))%Z.
Proof.
  unfold load_result, materialised, with_sources, cached, resolved.
  repeat case_match; done.
Qed.

Lemma path_load_result v h (a b : Z) : path (load_result v h a b) = path v.
Proof.
  unfold load_result, materialised, with_sources, cached, resolved.
  repeat case_match; done.
Qed.

Lemma which_set_load_result v h (a b : Z) :
  which_set (load_result v h a b) = which_set v.
Proof.
  unfold load_result, materialised, with_sources, cached, resolved.
  repeat case_match; done.
Qed.

Lemma load_in_memory_load_result v h (a b : Z) :
  load_in_memory (load_result v h a b) = load_in_memory v.
Proof.
  unfold load_result, materialised, with_sources, cached, resolved.
  repeat case_match; done.
Qed.

Lemma sources_load_result v h (a b : Z) :
  _sources (load_result v h a b) = _sources v.
Proof.
  unfold load_result, materialised, with_sources, cached, resolved.
  repeat case_match; done.
Qed.

(** The check of [load] on the shapes passes exactly when every column
    is as long as the first. *)
Lemma lengths_differ_false (cs : list (column A)) c0 cs' :
  cs = c0 :: cs' →
  lengths_differ (shape0 <$> cs) = false →
  ∀ c, c ∈ cs → shape0 c = shape0 c0.
Proof.
  intros -> Hd c Hc.
  destruct (Z.eq_dec (shape0 c) (shape0 c0)) as [|Hne]; [done|].
  assert (existsb (λ s, negb (s =? shape0 c0)%Z) (shape0 <$> (c0 :: cs')) = true)
    as Hex; [|unfold lengths_differ in Hd; simpl in Hd, Hex; congruence].
  apply existsb_exists. exists (shape0 c). split.
  - apply list_elem_of_In, list_elem_of_fmap. by exists c.
  - apply negb_true_iff, Z.eqb_neq. done.
Qed.

Lemma base_range_named v h s (r : Z * Z) shapes :
  which_set v = Some s → s ≠ "" → attrs (h_file h) !! s = Some r →
  base_range v h shapes = inr r.
Proof.
  intros Hw Hs Hr. unfold base_range, str_truthy. rewrite Hw, Hr.
  by apply String.eqb_neq in Hs as ->.
Qed.

Lemma base_range_whole v h (s0 : Z) shapes :
  which_set v = None ∨ which_set v = Some "" →
  base_range v h (s0 :: shapes) = inr (0%Z, s0).
Proof. intros [Hw | Hw]; unfold base_range, str_truthy; by rewrite Hw. Qed.

(** C4: for a view over a file whose columns agree on their length and
    whose subset has step 1 or None, [load] succeeds and resolves the
    range as follows.  With a split name [s] stored as [(a, b)]: the
    resolved start is the subset's start, or [a] if that is None; the
    resolved stop is the subset's stop, or [b] if that is None; so a
    subset [(x, y)] with [a <= x <= y <= b] resolves to exactly
    [(x, y)], with [num_examples = y - x].  With no split name (None, or
    the empty string, which is falsy), the base range is [(0, length)],
    [length] being the first-dimension length of the first column, which
    all columns share. *)
Theorem load_resolves_split v w fl :
  backing w (path v) fl →
  lengths_differ (shape0 <$> (columns fl).*2) = false →
  step_ok (sl_step (subset v)) = true →
  (∀ s (a b : Z),
      which_set v = Some s → s ≠ "" → attrs fl !! s = Some (a, b) →
      ∃ v' w', load v w = (inr v', w')
        ∧ sl_start (subset v') = Some (default a (sl_start (subset v)))
        ∧ sl_stop (subset v') = Some (default b (sl_stop (subset v)))
        ∧ ∀ x y : Z,
            sl_start (subset v) = Some x → sl_stop (subset v) = Some y →
            (a ≤ x ∧ x ≤ y ∧ y ≤ b)%Z →
            subset v' = Slice (Some x) (Some y) (sl_step (subset v))
            ∧ num_examples v' = Some (y - x)%Z)
  ∧ (∀ c cs,
      which_set v = None ∨ which_set v = Some "" →
      columns fl = c :: cs →
      ∃ v' w', load v w = (inr v', w')
        ∧ sl_start (subset v') = Some (default 0%Z (sl_start (subset v)))
        ∧ sl_stop (subset v') = Some (default (shape0 c.2) (sl_stop (subset v)))
        ∧ ∀ c', c' ∈ (columns fl).*2 → shape0 c' = shape0 c.2).
Proof.
  intros Hb Hlen Hstep.
  destruct (open_backing _ _ _ Hb) as (w1 & h & Hopen & Hreg & <- & Hdisk).
  split.
  - intros s a b Hw Hs Hattr.
    destruct (load_run v w w1 h a b Hopen Hreg Hlen Hstep) as (w' & Hload & _).
    { by eapply base_range_named. }
    exists (load_result v h a b), w'. split; [done|].
    rewrite subset_load_result, num_examples_load_result. simpl.
    split; [done|]. split; [done|].
    intros x y -> -> _. done.
  - intros c cs Hw Hcols.
    destruct (load_run v w w1 h 0%Z (shape0 c.2) Hopen Hreg Hlen Hstep) as (w' & Hload & _).
    { unfold values. rewrite Hcols. simpl. by apply base_range_whole. }
    exists (load_result v h 0%Z (shape0 c.2)), w'. split; [done|].
    rewrite subset_load_result. simpl.
    split; [done|]. split; [done|].
    eapply lengths_differ_false; [|done]. by rewrite Hcols.
Qed.
End Load.

(** ** Loading again, and requests *)

Section Requests.
Context {A : Type}.
Implicit Types (w : world A) (v : view A) (h : handle A) (fl : h5file A).

(** [_out_of_memory_open] raises or returns the path, registered. *)
Lemma open_cases v w :
  (∃ e w', _out_of_memory_open v w = (inl e, w'))
  ∨ (∃ w' h, _out_of_memory_open v w = (inr (Some (path v)), w')
             ∧ registered w' (path v) h).
Proof.
  destruct (ref_counts w !! Some (path v)) as [[|h n]|] eqn:Hrc.
  - destruct (disk w !! path v) as [fl|] eqn:Hd.
    + right. eexists _, _. rewrite (open_fresh _ _ _ (or_intror Hrc) Hd).
      split; [done|]. eexists. simpl. apply lookup_insert_eq.
    + left. unfold _out_of_memory_open.
      run (get_file_id_path v w).
      run (rc_getitem_entry _ _ _ Hrc). simpl.
      unfold mbind, M_bind, bind, h5py_File. rewrite Hd. eauto.
  - right. exists w, h. rewrite (open_existing _ _ _ _ Hrc). split; [done|]. by exists n.
  - destruct (disk w !! path v) as [fl|] eqn:Hd.
    + right. eexists _, _. rewrite (open_fresh _ _ _ (or_introl Hrc) Hd).
      split; [done|]. eexists. simpl. apply lookup_insert_eq.
    + left. unfold _out_of_memory_open.
      run (get_file_id_path v w).
      unfold mbind, M_bind, bind, rc_getitem, h5py_File. rewrite Hrc. simpl.
      rewrite Hd. eauto.
Qed.

(** A [load] that returns went through every check. *)
Lemma load_inv v w v1 w1 :
  load v w = (inr v1, w1) →
  ∃ h (a b : Z) w0,
    _out_of_memory_open v w = (inr (Some (path v)), w0)
    ∧ registered w0 (path v) h
    ∧ lengths_differ (shape0 <$> values h) = false
    ∧ step_ok (sl_step (subset v)) = true
    ∧ base_range v h (shape0 <$> values h) = inr (a, b)
    ∧ v1 = load_result v h a b
    ∧ settled (path v) h w0 w1.
Proof.
  intros Hload.
  destruct (open_cases v w) as [(e & w' & Ho) | (w0 & h & Ho & Hreg)].
  { unfold load in Hload. by rewrite (bind_err _ _ _ _ _ Ho) in Hload. }
  destruct (lengths_differ (shape0 <$> values h)) eqn:Hlen.
  { unfold load in Hload. run Ho in Hload.
    run (get_handle_registered _ _ _ Hreg) in Hload.
    by rewrite Hlen in Hload. }
  destruct (step_ok (sl_step (subset v))) eqn:Hstep.
  2:{ unfold load in Hload. run Ho in Hload.
      run (get_handle_registered _ _ _ Hreg) in Hload.
      by rewrite Hlen, Hstep in Hload. }
  destruct (base_range v h (shape0 <$> values h)) as [e | [a b]] eqn:Hbase.
  { unfold load in Hload. run Ho in Hload.
    run (get_handle_registered _ _ _ Hreg) in Hload.
    by rewrite Hlen, Hstep, Hbase in Hload. }
  destruct (load_run v w w0 h a b Ho Hreg Hlen Hstep Hbase) as (w' & Hrun & Hs).
  rewrite Hrun in Hload. injection Hload as <- <-.
  by exists h, a, b, w0.
Qed.

Lemma base_range_load_result v h (a b : Z) shapes :
  base_range (load_result v h a b) h shapes = base_range v h shapes.
Proof. unfold base_range. by rewrite which_set_load_result. Qed.

(** C9: when [load] has returned, with the file unchanged (nothing in
    the model writes to the disk or through a handle), calling [load]
    again on the view it left returns as well, with the same resolved
    subset and the same [num_examples]. *)
Theorem load_twice_same_range v w v1 w1 :
  load v w = (inr v1, w1) →
  ∃ v2 w2, load v1 w1 = (inr v2, w2)
           ∧ subset v2 = subset v1
           ∧ num_examples v2 = num_examples v1.
Proof.
  intros Hload.
  destruct (load_inv _ _ _ _ Hload)
    as (h & a & b & w0 & Ho & Hreg & Hlen & Hstep & Hbase & -> & Hs).
  assert (Hreg1 : registered w1 (path (load_result v h a b)) h).
  { rewrite path_load_result. apply Hs. }
  destruct (load_run (load_result v h a b) w1 w1 h a b) as (w2 & H2 & _).
  - by apply (open_registered _ _ h).
  - done.
  - done.
  - by rewrite subset_load_result.
  - by rewrite base_range_load_result.
  - eexists _, w2. split; [done|].
    rewrite !subset_load_result, !num_examples_load_result.
    rewrite !subset_load_result. done.
Qed.

(** C8 (as amended): a streamed view raises [ValueError] for every
    request that is neither a slice nor a list; a view in memory raises
    [ValueError] when the request is None or the state is not None, and
    with the state None it hands every other request, whatever its shape,
    to the indexing of its arrays. *)
Theorem invalid_request_by_mode v w st req :
  (load_in_memory v = false → is_slice req = false → is_list req = false →
   get_data v st req w = (inl ValueError, w))
  ∧ (load_in_memory v = true → req = PNone ∨ st ≠ None →
     get_data v st req w = (inl ValueError, w))
  ∧ (∀ ds, load_in_memory v = true → req ≠ PNone → data_sources v = Some ds →
     get_data v None req w
     = (data ← lift (traverse (λ d, getitem d req) ds); filter_sources v data) w).
Proof.
  split; [|split].
  - intros Hmode Hs Hl. unfold get_data, _out_of_memory_get_data, translate.
    rewrite Hmode. by destruct req.
  - intros Hmode Hr. unfold get_data, _in_memory_get_data. rewrite Hmode.
    destruct st as [t|]; [done|]. destruct Hr as [-> | Hst]; done.
  - intros ds Hmode Hr Hds. unfold get_data, _in_memory_get_data.
    rewrite Hmode, Hds. by destruct req.
Qed.

Lemma traverse_py_add (l : list Z) (s : Z) :
  traverse (λ i, py_add (Some i) (Some s)) l = inr ((λ i, i + s)%Z <$> l).
Proof. by apply traverse_total. Qed.

Lemma getitem_slice_nonneg (l : list A) (a b : Z) step :
  step_ok step = true → (0 ≤ a)%Z → (0 ≤ b)%Z →
  getitem l (PSlice (Slice (Some a) (Some b) step))
  = inr (Rows (take (Z.to_nat b - Z.to_nat a) (drop (Z.to_nat a) l))).
Proof. intros. unfold getitem. by rewrite getslice_nonneg. Qed.

Lemma translate_slice v w (s i j : Z) step :
  sl_start (subset v) = Some s →
  translate v (PSlice (Slice (Some i) (Some j) step)) w
  = (inr (PSlice (Slice (Some (i + s)%Z) (Some (j + s)%Z) step)), w).
Proof. intros Hs. unfold translate. simpl. by rewrite Hs. Qed.

Lemma translate_list v w (s : Z) (idx : list Z) :
  sl_start (subset v) = Some s →
  translate v (PList idx) w = (inr (PList ((λ i, i + s)%Z <$> idx)), w).
Proof. intros Hs. unfold translate. by rewrite Hs, traverse_py_add. Qed.

(** C6: a streamed view whose resolved range starts at [s], called with
    a state token under which the registry holds an entry, indexes the
    physical columns with the slice [[i+s, j+s)] for the request
    [[i, j)] (the step is passed on), and with the list of the indices
    plus [s] for a list request, before the columns are filtered; this
    for bounds, indices, start and sums within 64 bits, where the
    addition to the start does not wrap.  The token that [open] returns
    to a streamed view is such a token.  In the scenario (columns
    [features] of shape (100, 784) and [targets] of shape (100,),
    attribute [test = [80, 100]]), the view built with
    [which_set = "test"] and no subset has subset [(80, 100)] and
    [num_examples = 20], and called with the token of [open] the request
    [slice(0, 5)] returns the rows 80 to 84 of [features] and of
    [targets]. *)
Theorem streamed_request_translation :
  (∀ v w st h n (s i j : Z) step,
      load_in_memory v = false →
      sl_start (subset v) = Some s →
      ref_counts w !! st = Some (Entry h n) →
      fits_int64 s → fits_int64 i → fits_int64 j →
      fits_int64 (i + s) → fits_int64 (j + s) →
      get_data v st (PSlice (Slice (Some i) (Some j) step)) w
      = (data ← lift (traverse
                  (λ c, getitem (rows c)
                          (PSlice (Slice (Some (i + s)%Z) (Some (j + s)%Z) step)))
                  (values h));
         filter_sources v data) w)
  ∧ (∀ v w st h n (s : Z) (idx : list Z),
      load_in_memory v = false →
      sl_start (subset v) = Some s →
      ref_counts w !! st = Some (Entry h n) →
      fits_int64 s → Forall (λ i, fits_int64 i ∧ fits_int64 (i + s)) idx →
      get_data v st (PList idx) w
      = (data ← lift (traverse
                  (λ c, getitem (rows c) (PList ((λ i, i + s)%Z <$> idx)))
                  (values h));
         filter_sources v data) w)
  ∧ (∀ v w0 st w,
      load_in_memory v = false →
      open v w0 = (inr st, w) →
      st = Some (path v) ∧ ∃ h n, ref_counts w !! st = Some (Entry h n))
  ∧ (∀ (features targets : list A) (p : string) drv w,
      length features = 100 → length targets = 100 →
      backing w p (H5File [("features", Column features [784%Z]);
                           ("targets", Column targets [])]
                          {["test" := (80, 100)%Z]}) →
      ∃ v w1 st w2 v' w3,
        init p (Some "test") None false drv None w = (inr v, w1)
        ∧ subset v = Slice (Some 80%Z) (Some 100%Z) None
        ∧ num_examples v = Some 20%Z
        ∧ open v w1 = (inr st, w2)
        ∧ get_data v st (PSlice (Slice (Some 0%Z) (Some 5%Z) None)) w2
          = (inr (v', [Rows (take 5 (drop 80 features));
                       Rows (take 5 (drop 80 targets))]), w3)).
Proof.
  split; [|split; [|split]].
  - intros v w st h n s i j step Hmode Hs Hrc _ _ _ _ _.
    unfold get_data, _out_of_memory_get_data. rewrite Hmode.
    run (translate_slice v w s i j step Hs).
    by run (get_handle_entry _ _ _ _ Hrc).
  - intros v w st h n s idx Hmode Hs Hrc _ _.
    unfold get_data, _out_of_memory_get_data. rewrite Hmode.
    run (translate_list v w s idx Hs).
    by run (get_handle_entry _ _ _ _ Hrc).
  - intros v w0 st w Hmode Hopen. unfold open in Hopen. rewrite Hmode in Hopen.
    destruct (open_cases v w0) as [(e & w' & Ho) | (w' & h & Ho & [n Hn])];
      rewrite Ho in Hopen; [done|].
    injection Hopen as <- <-. split; [done|]. by exists h, n.
  - intros features targets p drv w Hf Ht Hb.
    set (fl := H5File _ _) in Hb.
    set (v0 := View p (Some "test") (Slice None None None) false drv None None None None : view A).
    destruct (open_backing v0 w fl Hb) as (w0 & h & Ho & Hreg & Hfl & _).
    assert (Hvals : values h = [Column features [784%Z]; Column targets []]).
    { unfold values. by rewrite Hfl. }
    destruct (load_run v0 w w0 h 80 100 Ho Hreg) as (w1 & Hload & Hs1).
    { rewrite Hvals. unfold lengths_differ, shape0. simpl. by rewrite Hf, Ht. }
    { done. }
    { eapply base_range_named; [done..|]. rewrite Hfl. apply lookup_singleton_eq. }
    set (v := load_result v0 h 80 100) in *.
    assert (Hreg1 : registered w1 (path v) h) by apply Hs1.
    destruct (filter_sources_run v w1 h
      [Rows (take 5 (drop 80 features)); Rows (take 5 (drop 80 targets))] Hreg1)
      as (w3 & Hfilter & _).
    exists v, w1, (Some p), w1, (cached v h), w3.
    split; [done|]. split; [done|]. split; [done|].
    split; [by apply (open_registered v w1 h)|].
    unfold get_data, _out_of_memory_get_data.
    change (load_in_memory v) with false. cbv iota.
    run (translate_slice v w1 80 0 5 None eq_refl).
    run (get_handle_registered _ _ _ Hreg1).
    rewrite Hvals. cbn [traverse rows].
    rewrite !getitem_slice_nonneg by done. cbn [lift Z.add].
    rewrite ret_bind.
    change (Z.to_nat (5 + 80) - Z.to_nat (0 + 80)) with 5.
    change (Z.to_nat (0 + 80)) with 80.
    rewrite Hfilter. f_equal. f_equal.
    unfold kept, exposed, provided, keys. rewrite Hfl. simpl.
    reflexivity.
Qed.
End Requests.

(** ** The two load modes when no column is requested *)

Section Modes.
Context {A : Type}.
Implicit Types (w : world A) (v : view A) (h : handle A) (fl : h5file A).

Lemma filter_all {X : Type} (P : X → Prop) `{!∀ x, Decision (P x)} (l : list X) :
  (∀ x, x ∈ l → P x) → filter P l = l.
Proof.
  induction l as [|x l IH]; intros HP; [done|].
  rewrite filter_cons, decide_True by (apply HP, list_elem_of_here).
  f_equal. apply IH. intros y Hy. by apply HP, list_elem_of_further.
Qed.

(** With every provided column exposed, [filter_sources] keeps a list
    that has one result per provided column as it is. *)
Lemma kept_all {X : Type} v h (data : list X) :
  provided v h = keys h → exposed v h = keys h →
  length data = length (keys h) →
  kept v h data = data.
Proof.
  intros Hp He Hlen. unfold kept. rewrite Hp, He.
  rewrite filter_all.
  - apply fst_zip. lia.
  - intros [d s] Hds. simpl. by apply elem_of_zip_r in Hds.
Qed.

Lemma kept_zip {X : Type} (ss : list string) (g : column A → X)
    (cols : list (string * column A)) :
  (filter (λ ds, ds.2 ∈ ss) (zip (g <$> cols.*2) cols.*1)).*1
  = (λ it, g it.2) <$> filter (λ it, it.1 ∈ ss) cols.
Proof.
  induction cols as [|[name c] cols IH]; [done|].
  cbn [fmap list_fmap zip zip_with fst snd].
  rewrite !filter_cons. cbn [fst snd].
  destruct (decide (name ∈ ss)); cbn [fmap list_fmap fst snd]; by rewrite <- IH.
Qed.

(** What [filter_sources] keeps of one result per column of the file:
    the results of the columns whose name is exposed, in the order of
    the file. *)
Lemma kept_columns {X : Type} v h (g : column A → X) :
  provided v h = keys h →
  kept v h (g <$> values h)
  = (λ it, g it.2) <$> filter (λ it, it.1 ∈ exposed v h) (items h).
Proof. intros Hp. unfold kept. rewrite Hp. apply kept_zip. Qed.

Lemma data_sources_materialised v h :
  data_sources (materialised v h)
  = Some ((λ it, slice_rows (subset v) (rows it.2))
            <$> filter (λ it, it.1 ∈ exposed v h) (items h)).
Proof. unfold materialised. by destruct (items h). Qed.

Lemma provided_materialised v h :
  _provides_sources v = None → provided (materialised v h) h = keys h.
Proof.
  destruct v as [? ? ? ? ? srcs cache ? ?]. simpl. intros ->.
  unfold materialised, with_sources, cached, provided.
  by destruct (items h), srcs.
Qed.

Lemma exposed_materialised v h :
  _sources v = None → _provides_sources v = None →
  exposed (materialised v h) h = keys h.
Proof.
  destruct v as [? ? ? ? ? srcs cache ? ?]. simpl. intros -> ->.
  unfold materialised, with_sources, cached, exposed, provided.
  by destruct (items h).
Qed.

Lemma registered_agree w p h h' :
  registered w p h → registered w p h' → h = h'.
Proof. intros [n Hn] [n' Hn']. congruence. Qed.

(** Mode equivalence, as far as the code has it: two views built alike
    over one path, with no column names requested, one in memory and one
    streamed with the token of [open], return the same arrays for every
    request [[i, j)] inside the resolved range (whose start is not
    negative and whose stop is within 64 bits). *)
Theorem modes_agree_without_requested_sources
    (p : string) ws sub drv w vm wm vs w1 st w2 (start stop i j : Z) :
  init p ws sub true drv None w = (inr vm, wm) →
  init p ws sub false drv None w = (inr vs, w1) →
  open vs w1 = (inr st, w2) →
  sl_start (subset vs) = Some start → sl_stop (subset vs) = Some stop →
  (0 ≤ start)%Z → (0 ≤ i ∧ i ≤ j ∧ j ≤ stop - start)%Z →
  fits_int64 stop →
  ∃ data vm' wm' vs' w3,
    get_data vm None (PSlice (Slice (Some i) (Some j) None)) wm
    = (inr (vm', data), wm')
    ∧ get_data vs st (PSlice (Slice (Some i) (Some j) None)) w2
      = (inr (vs', data), w3).
Proof.
  change (init p ws sub true drv None w)
    with (load (View p ws (default (Slice None None None) sub) true drv
                     None None None None) w).
  change (init p ws sub false drv None w)
    with (load (View p ws (default (Slice None None None) sub) false drv
                     None None None None) w).
  intros Hm Hs Hopen Hstart Hstop Hs0 Hij _.
  set (s0 := default (Slice None None None) sub) in *.
  destruct (load_inv _ _ _ _ Hm)
    as (h & a & b & w0 & Ho & Hreg & Hlen & Hstep & Hbase & Hvm & Hsm).
  destruct (load_inv _ _ _ _ Hs)
    as (h' & a' & b' & w0' & Ho' & Hreg' & _ & _ & Hbase' & Hvs & Hss).
  change (_out_of_memory_open (View p ws s0 false drv None None None None) w)
    with (_out_of_memory_open (View p ws s0 true drv None None None None) w) in Ho'.
  rewrite Ho in Ho'. injection Ho' as <-.
  simpl path in *.
  assert (h' = h) as -> by (by eapply registered_agree).
  change (base_range (View p ws s0 false drv None None None None) h (shape0 <$> values h))
    with (base_range (View p ws s0 true drv None None None None) h (shape0 <$> values h))
    in Hbase'.
  rewrite Hbase in Hbase'. injection Hbase' as <- <-.
  (* the streamed view *)
  unfold load_result in Hvs. simpl in Hvs.
  assert (Hregs : registered w1 (path vs) h) by (rewrite Hvs; apply Hss).
  assert (st = Some p ∧ w2 = w1) as [-> ->].
  { unfold open in Hopen. rewrite Hvs in Hopen. simpl in Hopen.
    rewrite <- Hvs in Hopen.
    rewrite (open_registered vs w1 h Hregs) in Hopen. rewrite Hvs in Hopen.
    simpl in Hopen. by injection Hopen as <- <-. }
  set (g := λ c : column A,
         Rows (take (Z.to_nat (j + start) - Z.to_nat (i + start))
                 (drop (Z.to_nat (i + start)) (rows c)))).
  assert (Hgets : get_data vs (Some p) (PSlice (Slice (Some i) (Some j) None)) w1
                  = filter_sources vs (g <$> values h) w1).
  { unfold get_data, _out_of_memory_get_data.
    assert (load_in_memory vs = false) as -> by (by rewrite Hvs).
    run (translate_slice vs w1 start i j None Hstart).
    assert (Hp : path vs = p) by (by rewrite Hvs). rewrite Hp in Hregs.
    run (get_handle_registered _ _ _ Hregs).
    erewrite (traverse_total _ g); [done|].
    intros c _. apply getitem_slice_nonneg; [done|lia..]. }
  destruct (filter_sources_run vs w1 h (g <$> values h) Hregs) as (w3 & Hfs & _).
  rewrite kept_all in Hfs; cycle 1.
  { by rewrite Hvs. }
  { by rewrite Hvs. }
  { unfold values, keys. by rewrite !length_fmap. }
  (* the view in memory *)
  unfold load_result in Hvm. simpl load_in_memory in Hvm. cbv iota in Hvm.
  set (vr := resolved (View p ws s0 true drv None None None None) a b) in *.
  assert (Hsub : subset vr = Slice (Some start) (Some stop) (sl_step s0)).
  { rewrite Hvs in Hstart, Hstop. simpl in Hstart, Hstop.
    injection Hstart as <-. injection Hstop as <-. done. }
  assert (Hregm : registered wm (path vm) h).
  { rewrite Hvm. unfold materialised, with_sources, cached.
    destruct (items h); apply Hsm. }
  assert (Hds : data_sources vm
                = Some ((λ c, take (Z.to_nat stop - Z.to_nat start)
                                (drop (Z.to_nat start) (rows c))) <$> values h)).
  { rewrite Hvm, data_sources_materialised.
    change (exposed vr h) with (keys h).
    rewrite filter_all.
    2:{ intros [name c] Hin. simpl. unfold keys.
        apply list_elem_of_fmap. by exists (name, c). }
    unfold values, items. rewrite <- list_fmap_compose. f_equal.
    apply list_fmap_ext. intros _ [name c] _. unfold compose. cbn [snd].
    unfold slice_rows. rewrite Hsub.
    rewrite getslice_nonneg by (done || lia). done. }
  assert (Hgetm : get_data vm None (PSlice (Slice (Some i) (Some j) None)) wm
                  = filter_sources vm (g <$> values h) wm).
  { unfold get_data, _in_memory_get_data.
    assert (load_in_memory vm = true) as ->.
    { rewrite Hvm. unfold materialised, with_sources, cached. by destruct (items h). }
    rewrite Hds.
    erewrite (traverse_total _
      (λ d, Rows (take (Z.to_nat j - Z.to_nat i) (drop (Z.to_nat i) d)))).
    2:{ intros d _. apply getitem_slice_nonneg; [done|lia..]. }
    simpl lift. rewrite ret_bind. f_equal.
    rewrite <- list_fmap_compose. apply list_fmap_ext. intros _ c _. simpl.
    unfold g. f_equal.
    rewrite take_drop_window by lia.
    f_equal; [lia | f_equal; lia]. }
  destruct (filter_sources_run vm wm h (g <$> values h) Hregm) as (wm' & Hfm & _).
  rewrite kept_all in Hfm; cycle 1.
  { rewrite Hvm. by apply provided_materialised. }
  { rewrite Hvm. by apply exposed_materialised. }
  { unfold values, keys. by rewrite !length_fmap. }
  exists (g <$> values h), (cached vm h), wm', (cached vs h), w3.
  by rewrite Hgetm, Hgets, Hfm, Hfs.
Qed.

(** The streamed path restricts the columns as intended: for a slice
    request (step 1 or None; bounds, start and sums within 64 bits) it
    returns the slice of each column of the file whose name is exposed,
    and of no other, in the order of the file. *)
Theorem streamed_returns_exposed_columns v w h (s i j : Z) step :
  load_in_memory v = false →
  sl_start (subset v) = Some s →
  registered w (path v) h →
  provided v h = keys h →
  step_ok step = true →
  fits_int64 s → fits_int64 i → fits_int64 j →
  fits_int64 (i + s) → fits_int64 (j + s) →
  ∃ w', get_data v (Some (path v)) (PSlice (Slice (Some i) (Some j) step)) w
        = (inr (cached v h,
                (λ it : string * column A,
                   Rows (slice_rows (Slice (Some (i + s)%Z) (Some (j + s)%Z) step)
                                    (rows it.2)))
                  <$> filter (λ it, it.1 ∈ exposed v h) (items h)), w').
Proof.
  intros Hmode Hs Hreg Hp Hstep%step_ok_nonzero _ _ _ _ _.
  unfold get_data, _out_of_memory_get_data. rewrite Hmode.
  run (translate_slice v w s i j step Hs).
  run (get_handle_registered _ _ _ Hreg).
  erewrite (traverse_total _
    (λ c, Rows (slice_rows (Slice (Some (i + s)%Z) (Some (j + s)%Z) step) (rows c)))).
  2:{ intros c _. unfold getitem. by rewrite getslice_total. }
  simpl lift. rewrite ret_bind.
  destruct (filter_sources_run v w h
    ((λ c, Rows (slice_rows (Slice (Some (i + s)%Z) (Some (j + s)%Z) step) (rows c)))
       <$> values h) Hreg) as (w' & Hf & _).
  exists w'. rewrite Hf. by rewrite kept_columns.
Qed.

Lemma subset_materialised v h : subset (materialised v h) = subset v.
Proof.
  destruct v as [? ? ? ? ? srcs cache ? ?].
  unfold materialised, with_sources, cached. simpl.
  by destruct (items h), srcs, cache.
Qed.

Lemma exposed_of_materialised v h : exposed (materialised v h) h = exposed v h.
Proof.
  destruct v as [? ? ? ? ? srcs cache ? ?].
  unfold materialised, with_sources, cached, exposed, provided. simpl.
  by destruct (items h), srcs, cache.
Qed.

(** C10: a slice request whose start or stop is None makes a streamed
    view raise [TypeError] (the resolved start is added to both bounds
    before anything else happens, and the registry is not touched),
    whatever the state token.  A view that [load] returned in memory
    accepts the same slice (the step being None or any integer but 0,
    which numpy rejects) and returns data: its arrays are the copies of
    the resolved range of the columns whose name is exposed, and
    [get_data] returns the slice of each copy that [filter_sources]
    keeps.  For a view built without requested sources that is one
    array for every column of the file, in the order of the file: the
    slice of the resolved range of the column. *)
Theorem open_ended_slice_by_mode v w (a b step : option Z) :
  a = None ∨ b = None →
  (∀ st, load_in_memory v = false →
         get_data v st (PSlice (Slice a b step)) w = (inl TypeError, w))
  ∧ (∀ v0 w0, load v0 w0 = (inr v, w) → load_in_memory v = true →
              step ≠ Some 0%Z →
              ∃ h w',
                registered w (path v) h
                ∧ data_sources v
                  = Some ((λ it : string * column A,
                             slice_rows (subset v) (rows it.2))
                            <$> filter (λ it, it.1 ∈ exposed v h) (items h))
                ∧ get_data v None (PSlice (Slice a b step)) w
                  = (inr (cached v h,
                          kept v h
                            ((λ it : string * column A,
                                Rows (slice_rows (Slice a b step)
                                        (slice_rows (subset v) (rows it.2))))
                               <$> filter (λ it, it.1 ∈ exposed v h) (items h))),
                     w')
                ∧ (_sources v0 = None → _provides_sources v0 = None →
                   kept v h
                     ((λ it : string * column A,
                         Rows (slice_rows (Slice a b step)
                                 (slice_rows (subset v) (rows it.2))))
                        <$> filter (λ it, it.1 ∈ exposed v h) (items h))
                   = (λ c, Rows (slice_rows (Slice a b step)
                                   (slice_rows (subset v) (rows c))))
                       <$> values h)).
Proof.
  intros Hab. split.
  - intros st Hmode. unfold get_data, _out_of_memory_get_data, translate.
    rewrite Hmode. simpl.
    destruct a as [i|], (sl_start (subset v)) as [s|], b as [j|];
      try done; destruct Hab; done.
  - intros v0 w0 Hload Hmode Hstep.
    destruct (load_inv _ _ _ _ Hload)
      as (h & a0 & b0 & w1 & Ho & Hreg & Hlen & Hstep0 & Hbase & Hv & Hs).
    assert (Hreg' : registered w (path v) h).
    { rewrite Hv, path_load_result. apply Hs. }
    assert (Hmode0 : load_in_memory v0 = true).
    { by rewrite Hv, load_in_memory_load_result in Hmode. }
    assert (Hvm : v = materialised (resolved v0 a0 b0) h).
    { rewrite Hv. unfold load_result. by rewrite Hmode0. }
    assert (Hds : data_sources v
                  = Some ((λ it : string * column A,
                             slice_rows (subset v) (rows it.2))
                            <$> filter (λ it, it.1 ∈ exposed v h) (items h))).
    { rewrite Hvm at 1. rewrite data_sources_materialised.
      by rewrite Hvm, subset_materialised, exposed_of_materialised. }
    destruct (filter_sources_run v w h
                ((λ it : string * column A,
                    Rows (slice_rows (Slice a b step)
                            (slice_rows (subset v) (rows it.2))))
                   <$> filter (λ it, it.1 ∈ exposed v h) (items h)) Hreg')
      as (w' & Hf & _).
    exists h, w'. split; [done|]. split; [done|]. split.
    + unfold get_data, _in_memory_get_data. rewrite Hmode, Hds.
      erewrite (traverse_total _ (λ d, Rows (slice_rows (Slice a b step) d))).
      2:{ intros d _. simpl. by rewrite getslice_total. }
      simpl lift. rewrite ret_bind.
      rewrite <- list_fmap_compose. exact Hf.
    + intros Hsrc Hcache.
      assert (Hexp : exposed v h = keys h).
      { rewrite Hvm. by apply exposed_materialised. }
      rewrite kept_all.
      * rewrite Hexp, filter_all.
        -- unfold values, items. by rewrite <- list_fmap_compose.
        -- intros [name c] Hin. simpl. unfold keys.
           apply list_elem_of_fmap. by exists (name, c).
      * rewrite Hvm. by apply provided_materialised.
      * done.
      * rewrite Hexp, filter_all.
        -- unfold keys, items. by rewrite !length_fmap.
        -- intros [name c] Hin. simpl. unfold keys.
           apply list_elem_of_fmap. by exists (name, c).
Qed.
End Modes.


(** ** What every computation keeps *)

Section Keeping.
Context {A : Type}.
Implicit Types (w : world A) (v : view A) (h : handle A) (fl : h5file A).

Lemma does_ret {X} (x : X) (R : relation (world A)) (Q : X → Prop) :
  Reflexive R → Q x → does (ret x) R Q.
Proof. intros HR HQ w. split; [apply HR|]. simpl. by intros ? [= <-]. Qed.

Lemma does_raise {X} (e : exn) (R : relation (world A)) (Q : X → Prop) :
  Reflexive R → does (raise e) R Q.
Proof. intros HR w. split; [apply HR|]. done. Qed.

Lemma does_lift {X} (r : exn + X) (R : relation (world A)) :
  Reflexive R → does (lift r) R (λ x, r = inr x).
Proof.
  intros HR. destruct r as [e|x]; simpl.
  - by apply does_raise.
  - by apply does_ret.
Qed.

Lemma does_bind {X Y} (m : M A X) (k : X → M A Y) (R : relation (world A))
    (Q : X → Prop) (Q' : Y → Prop) :
  Transitive R →
  does m R Q → (∀ x, Q x → does (k x) R Q') → does (m ≫= k) R Q'.
Proof.
  intros HR Hm Hk w. destruct (Hm w) as [Hw HQ].
  unfold mbind, M_bind, bind. destruct (m w) as [[e|x] w1]; simpl in *.
  - split; [done|]. done.
  - destruct (Hk x (HQ x eq_refl) w1) as [Hw1 HQ'].
    split; [by etrans|]. done.
Qed.

Lemma does_weaken {X} (m : M A X) (R : relation (world A)) (Q Q' : X → Prop) :
  (∀ x, Q x → Q' x) → does m R Q → does m R Q'.
Proof. intros HQ Hm w. destruct (Hm w) as [? ?]. split; [done|]. eauto. Qed.

#[global] Instance keeps_sound_refl : Reflexive (@keeps_sound A).
Proof. by intros w. Qed.

#[global] Instance keeps_sound_trans : Transitive (@keeps_sound A).
Proof.
  intros w1 w2 w3 [Hd1 H1] [Hd2 H2]. split; [congruence|auto].
Qed.

#[global] Instance outside_refl ks : Reflexive (@outside A ks).
Proof. by intros w k. Qed.

#[global] Instance outside_trans ks : Transitive (@outside A ks).
Proof. intros w1 w2 w3 H1 H2 k Hk. rewrite H2, H1; done. Qed.

Lemma sound_fresh d : sound (fresh_world d : world A).
Proof.
  split; [apply NoDup_nil_2|]. split.
  - intros e He. by apply elem_of_nil in He.
  - intros k h n Hk. simpl in Hk. by rewrite lookup_empty in Hk.
Qed.

(** Inserting the [int] default under a key that has no list entry. *)
Lemma sound_insert_zero w k :
  (ref_counts w !! k = None ∨ ref_counts w !! k = Some Zero) →
  sound w → sound (set_ref_counts (<[k := Zero]> (ref_counts w)) w).
Proof.
  intros Hk (Hnd & Hev & Hen). split; [done|]. split.
  - intros e He. destruct (Hev e He) as (p & h & n & -> & Hp).
    exists p, h, n. split; [done|]. simpl.
    rewrite lookup_insert_ne; [done|]. intros ->. destruct Hk; congruence.
  - intros k' h n Hk'. simpl in Hk'.
    destruct (decide (k = k')) as [<-|Hne].
    + by rewrite lookup_insert_eq in Hk'.
    + rewrite lookup_insert_ne in Hk' by done. by apply Hen.
Qed.

Lemma sound_decrement w k h n :
  ref_counts w !! k = Some (Entry h n) →
  sound w → sound (set_ref_counts (<[k := Entry h (n - 1)%Z]> (ref_counts w)) w).
Proof.
  intros Hk (Hnd & Hev & Hen). split; [done|]. split.
  - intros e He. destruct (Hev e He) as (p & h' & n' & -> & Hp). simpl.
    destruct (decide (k = Some p)) as [->|Hne].
    + exists p, h, (n - 1)%Z. by rewrite lookup_insert_eq.
    + exists p, h', n'. by rewrite lookup_insert_ne.
  - intros k' h' n' Hk'. simpl in Hk'.
    destruct (decide (k = k')) as [<-|Hne].
    + rewrite lookup_insert_eq in Hk'. injection Hk' as <- <-.
      destruct (Hen k h n Hk) as (p & ? & ? & ? & ? & ?).
      exists p. repeat split; try done. lia.
    + rewrite lookup_insert_ne in Hk' by done. by apply Hen.
Qed.

Lemma sound_opened w (p : string) drv fl :
  (ref_counts w !! Some p = None ∨ ref_counts w !! Some p = Some Zero) →
  disk w !! p = Some fl →
  sound w → sound (opened_world p drv fl w).
Proof.
  intros Hk Hd (Hnd & Hev & Hen).
  assert (Hfresh : EvOpen p ∉ trace w).
  { intros He. destruct (Hev _ He) as (p' & h & n & [= <-] & Hp).
    destruct Hk; congruence. }
  split; [|split].
  - simpl. apply NoDup_app. split; [done|]. split; [|apply NoDup_singleton].
    intros e He ->%list_elem_of_singleton. done.
  - intros e He. simpl in He. apply elem_of_app in He as [He | ->%list_elem_of_singleton].
    + destruct (Hev e He) as (p' & h & n & -> & Hp). exists p', h, n.
      split; [done|]. simpl. rewrite lookup_insert_ne; [done|].
      intros [= ->]. destruct Hk; congruence.
    + eexists p, _, _. split; [done|]. simpl. apply lookup_insert_eq.
  - intros k h n Hk'. simpl in Hk'.
    destruct (decide (Some p = k)) as [<-|Hne].
    + rewrite lookup_insert_eq in Hk'. injection Hk' as <- <-.
      exists p. simpl. repeat split; try done.
      apply elem_of_app. right. by apply list_elem_of_singleton.
    + rewrite lookup_insert_ne in Hk' by done.
      destruct (Hen k h n Hk') as (p' & ? & ? & ? & ? & ?).
      exists p'. simpl. repeat split; try done. apply elem_of_app. by left.
Qed.

(** [_out_of_memory_open] when the path is not registered and there is
    no such file. *)
Lemma open_missing v w :
  (ref_counts w !! Some (path v) = None ∨ ref_counts w !! Some (path v) = Some Zero) →
  disk w !! path v = None →
  _out_of_memory_open v w
  = (inl IOError, set_ref_counts (<[Some (path v) := Zero]> (ref_counts w)) w).
Proof.
  intros Hrc Hd. unfold _out_of_memory_open.
  run (get_file_id_path v w).
  unfold mbind, M_bind, bind, rc_getitem, h5py_File.
  destruct Hrc as [-> | Hz]; simpl; rewrite ?Hz, ?Hd; simpl; rewrite ?Hd; [done|].
  by rewrite insert_id, set_ref_counts_id.
Qed.

Lemma rc_getitem_keeps k :
  does (rc_getitem (A:=A) k) keeps_sound (λ _, True).
Proof.
  intros w. split; [|done]. unfold rc_getitem.
  destruct (ref_counts w !! k) eqn:Hk; simpl; [done|].
  split; [done|]. apply sound_insert_zero. by left.
Qed.

Lemma get_handle_keeps k :
  does (get_handle (A:=A) k) keeps_sound (λ _, True).
Proof.
  unfold get_handle. eapply does_bind; [apply _ | apply rc_getitem_keeps|].
  intros [|h n] _; simpl; [by apply does_raise | by apply does_ret].
Qed.

Lemma open_keeps v :
  does (_out_of_memory_open v) keeps_sound (λ _, True).
Proof.
  intros w. split; [|done].
  destruct (ref_counts w !! Some (path v)) as [[|h n]|] eqn:Hrc.
  - destruct (disk w !! path v) as [fl|] eqn:Hd.
    + rewrite (open_fresh _ _ _ (or_intror Hrc) Hd). split; [done|].
      apply sound_opened; auto.
    + rewrite (open_missing _ _ (or_intror Hrc) Hd). split; [done|].
      apply sound_insert_zero; auto.
  - by rewrite (open_existing _ _ _ _ Hrc).
  - destruct (disk w !! path v) as [fl|] eqn:Hd.
    + rewrite (open_fresh _ _ _ (or_introl Hrc) Hd). split; [done|].
      apply sound_opened; auto.
    + rewrite (open_missing _ _ (or_introl Hrc) Hd). split; [done|].
      apply sound_insert_zero; auto.
Qed.

(** [_out_of_memory_close] when the token has no list entry. *)
Lemma close_unregistered k w :
  (ref_counts w !! k = None ∨ ref_counts w !! k = Some Zero) →
  _out_of_memory_close k w
  = (inl TypeError, set_ref_counts (<[k := Zero]> (ref_counts w)) w).
Proof.
  intros Hrc. unfold _out_of_memory_close, decrement.
  unfold mbind, M_bind, bind, rc_getitem.
  destruct Hrc as [-> | Hz]; [done|]. rewrite Hz. simpl.
  by rewrite insert_id, set_ref_counts_id.
Qed.

Lemma close_keeps k :
  does (_out_of_memory_close (A:=A) k) keeps_sound (λ _, True).
Proof.
  intros w. split; [|done].
  destruct (ref_counts w !! k) as [[|h n]|] eqn:Hrc.
  - rewrite (close_unregistered _ _ (or_intror Hrc)). split; [done|].
    apply sound_insert_zero; auto.
  - rewrite (close_entry _ _ _ _ Hrc). split; [done|]. by apply sound_decrement.
  - rewrite (close_unregistered _ _ (or_introl Hrc)). split; [done|].
    apply sound_insert_zero; auto.
Qed.

Lemma provides_sources_keeps v :
  does (provides_sources v) keeps_sound (λ _, True).
Proof.
  unfold provides_sources. destruct (_provides_sources v); [by apply does_ret|].
  eapply does_bind; [apply _ | apply open_keeps|]. intros ref _.
  eapply does_bind; [apply _ | apply get_handle_keeps|]. intros h _.
  eapply does_bind; [apply _ | apply close_keeps|]. intros _ _.
  by apply does_ret.
Qed.

Lemma sources_keeps v : does (sources v) keeps_sound (λ _, True).
Proof.
  unfold sources. destruct (_sources v); [by apply does_ret|].
  apply provides_sources_keeps.
Qed.

Lemma filter_sources_keeps {X} v (data : list X) :
  does (filter_sources v data) keeps_sound (λ _, True).
Proof.
  unfold filter_sources.
  eapply does_bind; [apply _ | apply provides_sources_keeps|]. intros [v1 ps] _.
  eapply does_bind; [apply _ | apply sources_keeps|]. intros [v2 ss] _.
  by apply does_ret.
Qed.

Lemma lift_keeps {X} (r : exn + X) : does (lift (A:=A) r) keeps_sound (λ _, True).
Proof. eapply does_weaken; [|apply does_lift; apply _]. done. Qed.

Lemma materialise_keeps v h : does (materialise v h) keeps_sound (λ _, True).
Proof.
  unfold materialise. destruct (items h); [by apply does_ret|].
  eapply does_bind; [apply _ | apply sources_keeps|]. intros [v' ss] _.
  eapply does_bind; [apply _ | apply lift_keeps|]. intros ds _.
  by apply does_ret.
Qed.

Lemma load_keeps v : does (load v) keeps_sound (λ _, True).
Proof.
  unfold load.
  eapply does_bind; [apply _ | apply open_keeps|]. intros ref _.
  eapply does_bind; [apply _ | apply get_handle_keeps|]. intros h _.
  destruct (lengths_differ _); [by apply does_raise|].
  destruct (negb _); [by apply does_raise|].
  eapply does_bind; [apply _ | apply lift_keeps|]. intros [a b] _.
  eapply does_bind; [apply _ | | ].
  { instantiate (1 := λ _, True).
    destruct (load_in_memory _); [apply materialise_keeps | by apply does_ret]. }
  intros v3 _.
  eapply does_bind; [apply _ | apply close_keeps|]. intros _ _.
  by apply does_ret.
Qed.

Lemma init_keeps p ws sub in_memory drv srcs :
  does (init (A:=A) p ws sub in_memory drv srcs) keeps_sound (λ _, True).
Proof.
  unfold init. eapply does_bind; [apply _ | |].
  { unfold Dataset_init. by apply (does_ret _ _ (λ _, True)). }
  intros v _. apply load_keeps.
Qed.

Lemma translate_keeps v req : does (translate v req) keeps_sound (λ _, True).
Proof.
  unfold translate. destruct req; try (by apply does_raise).
  - eapply does_bind; [apply _ | apply lift_keeps|]. intros a _.
    eapply does_bind; [apply _ | apply lift_keeps|]. intros b _.
    by apply does_ret.
  - eapply does_bind; [apply _ | apply lift_keeps|]. intros idx _.
    by apply does_ret.
Qed.

Lemma get_data_keeps v st req : does (get_data v st req) keeps_sound (λ _, True).
Proof.
  unfold get_data. destruct (load_in_memory v).
  - unfold _in_memory_get_data.
    destruct st, req; try (by apply does_raise);
      (destruct (data_sources v); [|by apply does_raise]);
      (eapply does_bind; [apply _ | apply lift_keeps|]); intros data _;
      apply filter_sources_keeps.
  - unfold _out_of_memory_get_data.
    eapply does_bind; [apply _ | apply translate_keeps|]. intros req' _.
    eapply does_bind; [apply _ | apply get_handle_keeps|]. intros h _.
    eapply does_bind; [apply _ | apply lift_keeps|]. intros data _.
    apply filter_sources_keeps.
Qed.

Lemma exec_keeps (c : call A) w : keeps_sound w (exec c w).
Proof.
  destruct c; simpl; unfold after.
  - apply init_keeps.
  - apply load_keeps.
  - apply provides_sources_keeps.
  - unfold open. destruct (load_in_memory v); [done | apply open_keeps].
  - unfold close. destruct (negb _); [apply close_keeps | done].
  - apply get_data_keeps.
Qed.

Lemma execs_keeps (cs : list (call A)) : ∀ w, keeps_sound w (execs cs w).
Proof.
  induction cs as [|c cs IH]; intros w; [done|]. simpl.
  etrans; [apply exec_keeps | apply IH].
Qed.

(** X4: whatever calls were made since nothing was registered or opened,
    every file in the list of opened and closed files was opened, none
    was closed, and none was opened twice. *)
Theorem calls_open_once_never_close (d : gmap string (h5file A)) (cs : list (call A)) :
  NoDup (trace (execs cs (fresh_world d)))
  ∧ ∀ e, e ∈ trace (execs cs (fresh_world d)) →
         ∃ p, e = EvOpen p ∧ is_Some (d !! p).
Proof.
  destruct (execs_keeps cs (fresh_world d)) as [Hd Hs].
  destruct (Hs (sound_fresh d)) as (Hnd & Hev & Hen).
  split; [done|]. intros e He.
  destruct (Hev e He) as (p & h & n & -> & Hp). exists p. split; [done|].
  destruct (Hen _ _ _ Hp) as (p' & [= <-] & _ & Hdisk & _).
  rewrite Hd in Hdisk. simpl in Hdisk. eauto.
Qed.

(** X5: whatever calls were made since nothing was registered or opened,
    every list entry of the registry sits under the path its handle was
    opened with, the handle gives the file that the disk has under that
    path, and the count of the entry is at most 1. *)
Theorem calls_keep_entries_exact (d : gmap string (h5file A)) (cs : list (call A))
    k h (n : Z) :
  ref_counts (execs cs (fresh_world d)) !! k = Some (Entry h n) →
  k = Some (h_name h) ∧ d !! h_name h = Some (h_file h) ∧ (n ≤ 1)%Z.
Proof.
  intros Hk.
  destruct (execs_keeps cs (fresh_world d)) as [Hd Hs].
  destruct (Hs (sound_fresh d)) as (Hnd & Hev & Hen).
  destruct (Hen _ _ _ Hk) as (p & -> & <- & Hdisk & _ & Hn).
  rewrite Hd in Hdisk. done.
Qed.
End Keeping.

(** ** What a call leaves alone *)

Section Frame.
Context {A : Type}.
Implicit Types (w : world A) (v : view A) (h : handle A) (fl : h5file A).
Implicit Types (ks : list (option string)).

Lemma outside_insert ks k (s : slot A) w :
  k ∈ ks → outside ks w (set_ref_counts (<[k := s]> (ref_counts w)) w).
Proof.
  intros Hk k' Hk'. simpl. rewrite lookup_insert_ne; [done|]. by intros ->.
Qed.

Lemma rc_getitem_outside ks k :
  k ∈ ks → does (rc_getitem (A:=A) k) (outside ks) (λ _, True).
Proof.
  intros Hk w. split; [|done]. unfold rc_getitem.
  destruct (ref_counts w !! k); simpl; [done|]. by apply outside_insert.
Qed.

Lemma get_handle_outside ks k :
  k ∈ ks → does (get_handle (A:=A) k) (outside ks) (λ _, True).
Proof.
  intros Hk. unfold get_handle.
  eapply does_bind; [apply _ | by apply rc_getitem_outside|].
  intros [|h n] _; simpl; [by apply does_raise | by apply does_ret].
Qed.

Lemma open_outside ks v :
  Some (path v) ∈ ks →
  does (_out_of_memory_open v) (outside ks) (λ ref, ref = Some (path v)).
Proof.
  intros Hk w.
  destruct (ref_counts w !! Some (path v)) as [[|h n]|] eqn:Hrc;
    [destruct (disk w !! path v) as [fl|] eqn:Hd | |
     destruct (disk w !! path v) as [fl|] eqn:Hd].
  - rewrite (open_fresh _ _ _ (or_intror Hrc) Hd). simpl.
    split; [by apply (outside_insert ks _ _ w) | by intros ? [= <-]].
  - rewrite (open_missing _ _ (or_intror Hrc) Hd).
    split; [by apply outside_insert | done].
  - rewrite (open_existing _ _ _ _ Hrc). split; [done | by intros ? [= <-]].
  - rewrite (open_fresh _ _ _ (or_introl Hrc) Hd). simpl.
    split; [by apply (outside_insert ks _ _ w) | by intros ? [= <-]].
  - rewrite (open_missing _ _ (or_introl Hrc) Hd).
    split; [by apply outside_insert | done].
Qed.

Lemma close_outside ks k :
  k ∈ ks → does (_out_of_memory_close (A:=A) k) (outside ks) (λ _, True).
Proof.
  intros Hk w. split; [|done].
  destruct (ref_counts w !! k) as [[|h n]|] eqn:Hrc.
  - rewrite (close_unregistered _ _ (or_intror Hrc)). by apply outside_insert.
  - rewrite (close_entry _ _ _ _ Hrc). by apply outside_insert.
  - rewrite (close_unregistered _ _ (or_introl Hrc)). by apply outside_insert.
Qed.

Lemma provides_sources_outside ks v :
  Some (path v) ∈ ks →
  does (provides_sources v) (outside ks) (λ r, path r.1 = path v).
Proof.
  intros Hk. unfold provides_sources.
  destruct (_provides_sources v); [by apply does_ret|].
  eapply does_bind; [apply _ | by apply open_outside|]. intros ref ->.
  eapply does_bind; [apply _ | by apply get_handle_outside|]. intros h _.
  eapply does_bind; [apply _ | by apply close_outside|]. intros _ _.
  by apply does_ret.
Qed.

Lemma sources_outside ks v :
  Some (path v) ∈ ks →
  does (sources v) (outside ks) (λ r, path r.1 = path v).
Proof.
  intros Hk. unfold sources. destruct (_sources v); [by apply does_ret|].
  by apply provides_sources_outside.
Qed.

Lemma filter_sources_outside {X} ks v (data : list X) :
  Some (path v) ∈ ks →
  does (filter_sources v data) (outside ks) (λ _, True).
Proof.
  intros Hk. unfold filter_sources.
  eapply does_bind; [apply _ | by apply provides_sources_outside|].
  intros [v1 ps] Hp. simpl in Hp.
  eapply does_bind; [apply _ | apply sources_outside; by rewrite Hp|].
  intros [v2 ss] _. by apply does_ret.
Qed.

Lemma lift_outside {X} ks (r : exn + X) :
  does (lift (A:=A) r) (outside ks) (λ _, True).
Proof. eapply does_weaken; [|apply does_lift; apply _]. done. Qed.

Lemma materialise_outside ks v h :
  Some (path v) ∈ ks → does (materialise v h) (outside ks) (λ _, True).
Proof.
  intros Hk. unfold materialise. destruct (items h); [by apply does_ret|].
  eapply does_bind; [apply _ | by apply sources_outside|]. intros [v' ss] _.
  eapply does_bind; [apply _ | apply lift_outside|]. intros ds _.
  by apply does_ret.
Qed.

Lemma load_outside ks v :
  Some (path v) ∈ ks → does (load v) (outside ks) (λ _, True).
Proof.
  intros Hk. unfold load.
  eapply does_bind; [apply _ | by apply open_outside|]. intros ref ->.
  eapply does_bind; [apply _ | by apply get_handle_outside|]. intros h _.
  destruct (lengths_differ _); [by apply does_raise|].
  destruct (negb _); [by apply does_raise|].
  eapply does_bind; [apply _ | apply lift_outside|]. intros [a b] _.
  eapply does_bind; [apply _ | | ].
  { instantiate (1 := λ _, True).
    destruct (load_in_memory _); [by apply materialise_outside | by apply does_ret]. }
  intros v3 _.
  eapply does_bind; [apply _ | by apply close_outside|]. intros _ _.
  by apply does_ret.
Qed.

Lemma translate_outside ks v req :
  does (translate v req) (outside ks) (λ _, True).
Proof.
  unfold translate. destruct req; try (by apply does_raise).
  - eapply does_bind; [apply _ | apply lift_outside|]. intros a _.
    eapply does_bind; [apply _ | apply lift_outside|]. intros b _.
    by apply does_ret.
  - eapply does_bind; [apply _ | apply lift_outside|]. intros idx _.
    by apply does_ret.
Qed.

Lemma get_data_outside ks v st req :
  Some (path v) ∈ ks → st ∈ ks →
  does (get_data v st req) (outside ks) (λ _, True).
Proof.
  intros Hk Hst. unfold get_data. destruct (load_in_memory v).
  - unfold _in_memory_get_data.
    destruct st, req; try (by apply does_raise);
      (destruct (data_sources v); [|by apply does_raise]);
      (eapply does_bind; [apply _ | apply lift_outside|]); intros data _;
      by apply filter_sources_outside.
  - unfold _out_of_memory_get_data.
    eapply does_bind; [apply _ | apply translate_outside|]. intros req' _.
    eapply does_bind; [apply _ | by apply get_handle_outside|]. intros h _.
    eapply does_bind; [apply _ | apply lift_outside|]. intros data _.
    by apply filter_sources_outside.
Qed.

Lemma init_outside ks p ws sub in_memory drv srcs :
  Some p ∈ ks →
  does (init (A:=A) p ws sub in_memory drv srcs) (outside ks) (λ _, True).
Proof.
  intros Hk. unfold init. eapply does_bind; [apply _ | |].
  { unfold Dataset_init. by apply (does_ret _ _ (λ v, path v = p)). }
  intros v Hp. apply load_outside. by rewrite Hp.
Qed.

Lemma does_after {X} (m : M A X) (R : relation (world A)) (Q : X → Prop) w :
  does m R Q → R w (after m w).
Proof. intros H. apply H. Qed.

(** X3: a call reads and writes the registry only under the path of its
    view and under the state token it is given: every other key has the
    value, or the absence, it had before, whether the call returns or
    raises. *)
Theorem call_leaves_other_keys (c : call A) w k :
  k ∉ keys_of c →
  ref_counts (exec c w) !! k = ref_counts w !! k.
Proof.
  intros Hk. revert k Hk. change (outside (keys_of c) w (exec c w)).
  destruct c; simpl.
  - eapply does_after, init_outside, list_elem_of_here.
  - eapply does_after, load_outside, list_elem_of_here.
  - eapply does_after, provides_sources_outside, list_elem_of_here.
  - unfold open. destruct (load_in_memory v); [done|].
    eapply does_after, open_outside, list_elem_of_here.
  - unfold close. destruct (negb _); [|done].
    eapply does_after, close_outside, list_elem_of_here.
  - eapply does_after, get_data_outside; [apply list_elem_of_here|].
    apply list_elem_of_further, list_elem_of_here.
Qed.
End Frame.

(** ** Error and edge behaviour of the registry and of [load] *)

Section Edges.
Context {A : Type}.
Implicit Types (w : world A) (v : view A) (h : handle A) (fl : h5file A).

(** X1: [_get_file_id] returns the path of the view and leaves the world
    as it is, whatever the registry holds: the keys of a dict are
    distinct, so the list of the keys equal to the path has at most one
    element and its unpacking cannot raise. *)
Theorem get_file_id_total v w :
  _get_file_id v w = (inr (Some (path v)), w)
  ∧ length (filter (λ f, f = Some (path v)) (elements (dom (ref_counts w)))) ≤ 1.
Proof.
  split; [apply get_file_id_path|].
  destruct (filter_eq_NoDup (Some (path v)) (elements (dom (ref_counts w))))
    as [-> | ->]; [apply NoDup_elements | simpl; lia..].
Qed.

(** X2: [_out_of_memory_close] has two outcomes.  Under a token with a
    list entry it returns, the count is one less, and the entry and its
    handle stay; under any other token it raises [TypeError] and the
    [int] default is left under the token.  It never raises [NameError],
    never removes an entry and never closes a file. *)
Theorem close_outcomes (state : option string) w :
  (∃ h n,
      ref_counts w !! state = Some (Entry h n)
      ∧ _out_of_memory_close state w
        = (inr tt, set_ref_counts (<[state := Entry h (n - 1)%Z]> (ref_counts w)) w))
  ∨ ((ref_counts w !! state = None ∨ ref_counts w !! state = Some Zero)
     ∧ _out_of_memory_close state w
       = (inl TypeError, set_ref_counts (<[state := Zero]> (ref_counts w)) w)).
Proof.
  destruct (ref_counts w !! state) as [[|h n]|] eqn:Hrc.
  - right. split; [by right|]. apply close_unregistered. by right.
  - left. exists h, n. split; [done|]. by apply close_entry.
  - right. split; [by left|]. apply close_unregistered. by left.
Qed.

(** X14: releasing a path that was never acquired raises [TypeError] and
    leaves the [int] default in the registry; the default is falsy, so a
    later acquisition of the path still opens the file and registers it
    with count 1. *)
Theorem release_before_acquire v w fl :
  ref_counts w !! Some (path v) = None →
  disk w !! path v = Some fl →
  ∃ w1 w2,
    _out_of_memory_close (Some (path v)) w = (inl TypeError, w1)
    ∧ ref_counts w1 !! Some (path v) = Some Zero
    ∧ _out_of_memory_open v w1 = (inr (Some (path v)), w2)
    ∧ ref_counts w2 !! Some (path v)
      = Some (Entry (Handle (path v) (driver v) fl) 1)
    ∧ trace w2 = trace w ++ [EvOpen (path v)].
Proof.
  intros Hrc Hd. eexists _, _.
  rewrite (close_unregistered _ _ (or_introl Hrc)). split; [done|].
  assert (Hz : ref_counts (set_ref_counts (<[Some (path v) := Zero]> (ref_counts w)) w)
               !! Some (path v) = Some Zero) by apply lookup_insert_eq.
  split; [done|].
  rewrite (open_fresh v _ fl (or_intror Hz) Hd). split; [done|].
  simpl. by rewrite lookup_insert_eq.
Qed.

Lemma lengths_differ_true (cs : list (column A)) c1 c2 :
  c1 ∈ cs → c2 ∈ cs → shape0 c1 ≠ shape0 c2 →
  lengths_differ (shape0 <$> cs) = true.
Proof.
  intros H1 H2 Hne. destruct cs as [|c0 cs]; [by apply elem_of_nil in H1|].
  unfold lengths_differ. cbn [fmap list_fmap].
  change (shape0 c0 :: list_fmap _ _ shape0 cs) with (shape0 <$> (c0 :: cs)).
  apply existsb_exists.
  destruct (Z.eq_dec (shape0 c1) (shape0 c0)) as [He|Hn].
  - exists (shape0 c2). split.
    + apply list_elem_of_In. change (shape0 c2 ∈ shape0 <$> (c0 :: cs)).
      apply list_elem_of_fmap. by exists c2.
    + apply negb_true_iff, Z.eqb_neq. congruence.
  - exists (shape0 c1). split.
    + apply list_elem_of_In. change (shape0 c1 ∈ shape0 <$> (c0 :: cs)).
      apply list_elem_of_fmap. by exists c1.
    + by apply negb_true_iff, Z.eqb_neq.
Qed.

(** The start of [load]: the file is acquired and its handle read. *)
Lemma load_opened v w w1 h :
  _out_of_memory_open v w = (inr (Some (path v)), w1) →
  registered w1 (path v) h →
  load v w
  = (let shapes := shape0 <$> values h in
     if lengths_differ shapes then raise ValueError else
     if negb (step_ok (sl_step (subset v))) then raise ValueError else
     lift (base_range v h shapes) ≫= λ '(start, stop),
       let start' := default start (sl_start (subset v)) in
       let stop' := default stop (sl_stop (subset v)) in
       let v1 := set_subset (Slice (Some start') (Some stop') (sl_step (subset v))) v in
       let v2 := set_num_examples (stop' - start')%Z v1 in
       (if load_in_memory v2
        then materialise v2 h
        else ret (set_data_sources None v2)) ≫= λ v3,
       _out_of_memory_close (Some (path v));; ret v3) w1.
Proof.
  intros Ho Hreg. unfold load. run Ho.
  by run (get_handle_registered _ _ _ Hreg).
Qed.

(** X7: [load] compares the lengths of all the columns of the file,
    requested or not: if two of them differ it raises [ValueError],
    before the step and the split are looked at. *)
Theorem load_rejects_mismatched_columns v w fl c1 c2 :
  backing w (path v) fl →
  c1 ∈ (columns fl).*2 → c2 ∈ (columns fl).*2 → shape0 c1 ≠ shape0 c2 →
  ∃ w', load v w = (inl ValueError, w').
Proof.
  intros Hb H1 H2 Hne.
  destruct (open_backing _ _ _ Hb) as (w1 & h & Ho & Hreg & <- & _).
  rewrite (load_opened _ _ _ _ Ho Hreg). cbv zeta.
  rewrite (lengths_differ_true _ c1 c2) by done. by exists w1.
Qed.

(** X8: over a file whose columns agree, a subset step other than 1 and
    None makes [load] raise [ValueError], whatever the split. *)
Theorem load_rejects_step v w fl (k : Z) :
  backing w (path v) fl →
  lengths_differ (shape0 <$> (columns fl).*2) = false →
  sl_step (subset v) = Some k → k ≠ 1%Z →
  ∃ w', load v w = (inl ValueError, w').
Proof.
  intros Hb Hlen Hstep Hk.
  destruct (open_backing _ _ _ Hb) as (w1 & h & Ho & Hreg & <- & _).
  rewrite (load_opened _ _ _ _ Ho Hreg). cbv zeta.
  unfold values. rewrite Hlen, Hstep. simpl.
  apply Z.eqb_neq in Hk as ->. by exists w1.
Qed.

(** X9: a split name that the file has no attribute for makes [load]
    raise [KeyError], once the lengths and the step have passed. *)
Theorem load_unknown_split_raises v w fl s :
  backing w (path v) fl →
  lengths_differ (shape0 <$> (columns fl).*2) = false →
  step_ok (sl_step (subset v)) = true →
  which_set v = Some s → s ≠ "" → attrs fl !! s = None →
  ∃ w', load v w = (inl KeyError, w').
Proof.
  intros Hb Hlen Hstep Hw Hs Hattr.
  destruct (open_backing _ _ _ Hb) as (w1 & h & Ho & Hreg & <- & _).
  rewrite (load_opened _ _ _ _ Ho Hreg). cbv zeta.
  unfold values. rewrite Hlen, Hstep. simpl.
  unfold base_range, str_truthy. rewrite Hw, Hattr.
  apply String.eqb_neq in Hs as ->. by exists w1.
Qed.

(** X10: when the path is not registered and there is no such file,
    [load] raises [IOError]; the [int] default that the lookup inserted
    stays in the registry under the path, and nothing is opened. *)
Theorem load_missing_file v w :
  ref_counts w !! Some (path v) = None →
  disk w !! path v = None →
  load v w
  = (inl IOError, set_ref_counts (<[Some (path v) := Zero]> (ref_counts w)) w).
Proof.
  intros Hrc Hd. unfold load.
  by rewrite (bind_err _ _ _ _ _ (open_missing _ _ (or_introl Hrc) Hd)).
Qed.

(** X6: a [load] that raises after it acquired the file does not release
    it: the world it leaves is the world that the acquisition left.  The
    entry of the path has the count it had before [load] if the path was
    registered, and the count 1 of a first acquisition if it was not;
    the decrement of the release, the last statement of [load], is not
    reached. *)
Theorem load_failure_keeps_registration v w fl e w' :
  backing w (path v) fl →
  load v w = (inl e, w') →
  _out_of_memory_open v w = (inr (Some (path v)), w')
  ∧ match ref_counts w !! Some (path v) with
    | Some (Entry h n) => ref_counts w' !! Some (path v) = Some (Entry h n)
    | _ => ref_counts w' !! Some (path v)
           = Some (Entry (Handle (path v) (driver v) fl) 1)
    end.
Proof.
  intros Hb Hload.
  destruct (open_backing _ _ _ Hb) as (w1 & h & Ho & Hreg & Hfl & Hdisk).
  assert (Hw : w' = w1).
  { destruct (lengths_differ (shape0 <$> values h)) eqn:Hlen.
    { rewrite (load_opened _ _ _ _ Ho Hreg) in Hload. cbv zeta in Hload.
      rewrite Hlen in Hload. by injection Hload as <- <-. }
    destruct (step_ok (sl_step (subset v))) eqn:Hstep.
    2:{ rewrite (load_opened _ _ _ _ Ho Hreg) in Hload. cbv zeta in Hload.
        rewrite Hlen, Hstep in Hload. by injection Hload as <- <-. }
    destruct (base_range v h (shape0 <$> values h)) as [e' | [a b]] eqn:Hbase.
    { rewrite (load_opened _ _ _ _ Ho Hreg) in Hload. cbv zeta in Hload.
      rewrite Hlen, Hstep, Hbase in Hload. by injection Hload as <- <-. }
    destruct (load_run v w w1 h a b Ho Hreg Hlen Hstep Hbase) as (w2 & Hrun & _).
    congruence. }
  subst w'. split; [done|].
  unfold backing in Hb.
  destruct (ref_counts w !! Some (path v)) as [[|h0 n0]|] eqn:Hrc.
  - rewrite (open_fresh _ _ _ (or_intror Hrc) Hb) in Ho. injection Ho as <-.
    simpl. apply lookup_insert_eq.
  - rewrite (open_existing _ _ _ _ Hrc) in Ho. by injection Ho as <-.
  - rewrite (open_fresh _ _ _ (or_introl Hrc) Hb) in Ho. injection Ho as <-.
    simpl. apply lookup_insert_eq.
Qed.
End Edges.

(** ** Column names, copies in memory and rows returned *)

Section Data.
Context {A : Type}.
Implicit Types (w : world A) (v : view A) (h : handle A) (fl : h5file A).

(** X12: the first access to [provides_sources] returns the names of the
    columns of the file, in the order of the file, and stores them in the
    view; an access on the view it returns gives the same names and leaves
    the world as it is. *)
Theorem provides_sources_reads_then_caches v w fl :
  backing w (path v) fl →
  _provides_sources v = None →
  ∃ v' w',
    provides_sources v w = (inr (v', (columns fl).*1), w')
    ∧ provides_sources v' w' = (inr (v', (columns fl).*1), w')
    ∧ disk w' = disk w.
Proof.
  intros Hb Hc. unfold provides_sources at 1. rewrite Hc.
  destruct (open_backing _ _ _ Hb) as (w1 & h & Ho & Hreg & <- & Hd).
  run Ho. run (get_handle_registered _ _ _ Hreg).
  destruct (close_registered _ _ _ Hreg) as (w2 & Hclose & _ & Hd2 & _).
  run Hclose. exists (set_provides (keys h) v), w2.
  split; [done|]. split; [done|]. congruence.
Qed.

Lemma length_slice_rows (l : list A) (s e : Z) step :
  step_ok step = true → (0 ≤ s)%Z → (s ≤ e)%Z → (e ≤ Z.of_nat (length l))%Z →
  Z.of_nat (length (slice_rows (Slice (Some s) (Some e) step) l)) = (e - s)%Z.
Proof.
  intros Hstep Hs Hse He. unfold slice_rows.
  rewrite getslice_nonneg by (done || lia).
  rewrite length_take, length_drop. lia.
Qed.

(** X11: when [load] returns for a view in memory whose resolved range
    [(s, e)] lies inside the file ([0 <= s <= e <= length]), every array
    it copied has exactly [e - s] rows, the value of [num_examples]. *)
Theorem in_memory_arrays_have_num_examples_rows v w v' w' fl (len s e : Z) :
  backing w (path v) fl →
  load v w = (inr v', w') →
  load_in_memory v = true →
  (∀ c, c ∈ (columns fl).*2 → shape0 c = len) →
  sl_start (subset v') = Some s → sl_stop (subset v') = Some e →
  (0 ≤ s ∧ s ≤ e ∧ e ≤ len)%Z →
  num_examples v' = Some (e - s)%Z
  ∧ ∃ ds, data_sources v' = Some ds
          ∧ Forall (λ d, Z.of_nat (length d) = (e - s)%Z) ds.
Proof.
  intros Hb Hload Hmode Hlen Hs He Hse.
  destruct (load_inv _ _ _ _ Hload)
    as (h & a & b & w0 & Ho & Hreg & _ & Hstep & _ & -> & _).
  destruct (open_backing _ _ _ Hb) as (w1 & h1 & Ho1 & Hreg1 & <- & _).
  rewrite Ho in Ho1. injection Ho1 as <-.
  assert (h1 = h) as -> by (by eapply registered_agree).
  rewrite subset_load_result in Hs, He. simpl in Hs, He.
  injection Hs as Hs. injection He as He.
  split.
  { rewrite num_examples_load_result. by rewrite Hs, He. }
  unfold load_result. rewrite Hmode. rewrite data_sources_materialised.
  eexists. split; [done|].
  apply Forall_fmap, Forall_forall. intros [name c] Hin. simpl.
  rewrite Hs, He. apply length_slice_rows; [done|lia..|].
  apply list_elem_of_filter in Hin as [_ Hin].
  rewrite <- (Hlen c) in Hse; [unfold shape0 in Hse; lia|].
  apply list_elem_of_fmap. by exists (name, c).
Qed.

(** X13: once [load] has returned for a streamed view, [open] on the
    view it left returns the path as token and changes nothing: the file
    is not opened again and the count of its entry is not raised. *)
Theorem open_after_load_changes_nothing v w v' w' :
  load v w = (inr v', w') →
  load_in_memory v = false →
  open v' w' = (inr (Some (path v)), w').
Proof.
  intros Hload Hmode.
  destruct (load_inv _ _ _ _ Hload)
    as (h & a & b & w0 & _ & _ & _ & _ & _ & -> & Hs).
  unfold open. rewrite load_in_memory_load_result, Hmode.
  rewrite <- (path_load_result v h a b).
  apply (open_registered _ _ h). rewrite path_load_result. apply Hs.
Qed.

(** X15: a streamed view given a state token that has no list entry in
    the registry (the default [None], or a path never acquired) raises
    [TypeError] for every request it can translate, returns no data, and
    leaves the [int] default in the registry under the token. *)
Theorem streamed_get_data_unregistered_state v w st req req' :
  load_in_memory v = false →
  translate v req w = (inr req', w) →
  ref_counts w !! st = None ∨ ref_counts w !! st = Some Zero →
  get_data v st req w
  = (inl TypeError, set_ref_counts (<[st := Zero]> (ref_counts w)) w).
Proof.
  intros Hmode Htr Hst. unfold get_data, _out_of_memory_get_data.
  rewrite Hmode. run Htr.
  by rewrite (bind_err _ _ _ _ _ (get_handle_unregistered _ _ Hst)).
Qed.

(** X16: a streamed view whose resolved range starts at [s >= 0] answers
    the request [[i, j)] (bounds not negative, step 1 or None; bounds,
    start and sums within 64 bits, where the addition to the start does
    not wrap) with the rows [i + s] to [j + s - 1] of each exposed column
    of the file, cut only at the end of the file: the resolved stop of
    the view plays no part, so a request that reaches past it returns
    rows from outside the view. *)
Theorem streamed_slice_ignores_stop v w h (s i j : Z) step :
  load_in_memory v = false →
  sl_start (subset v) = Some s →
  registered w (path v) h →
  provided v h = keys h →
  step_ok step = true →
  (0 ≤ s)%Z → (0 ≤ i)%Z → (0 ≤ j)%Z →
  fits_int64 (i + s) → fits_int64 (j + s) →
  ∃ w', get_data v (Some (path v)) (PSlice (Slice (Some i) (Some j) step)) w
        = (inr (cached v h,
                (λ it : string * column A,
                   Rows (take (Z.to_nat j - Z.to_nat i)
                              (drop (Z.to_nat i + Z.to_nat s) (rows it.2))))
                  <$> filter (λ it, it.1 ∈ exposed v h) (items h)), w').
Proof.
  intros Hmode Hs Hreg Hp Hstep Hs0 Hi Hj _ _.
  unfold get_data, _out_of_memory_get_data. rewrite Hmode.
  run (translate_slice v w s i j step Hs).
  run (get_handle_registered _ _ _ Hreg).
  erewrite (traverse_total _
    (λ c, Rows (take (Z.to_nat j - Z.to_nat i)
                  (drop (Z.to_nat i + Z.to_nat s) (rows c))))).
  2:{ intros c _. rewrite getitem_slice_nonneg by (done || lia).
      replace (Z.to_nat (j + s) - Z.to_nat (i + s)) with (Z.to_nat j - Z.to_nat i)
        by lia.
      by replace (Z.to_nat (i + s)) with (Z.to_nat i + Z.to_nat s) by lia. }
  simpl lift. rewrite ret_bind.
  destruct (filter_sources_run v w h
    ((λ c, Rows (take (Z.to_nat j - Z.to_nat i)
                   (drop (Z.to_nat i + Z.to_nat s) (rows c)))) <$> values h) Hreg)
    as (w' & Hf & _).
  exists w'. rewrite Hf. by rewrite kept_columns.
Qed.
End Data.

(** ** Hdf5Dataset *)

Section Hdf5.
Context {A : Type}.
Implicit Types (d : Hdf5Dataset.t A) (g : gmap string (list A)).
Implicit Types (disk : gmap string (Hdf5Dataset.tables_file A)).

Lemma getattrs_inr g names ns :
  Hdf5Dataset.getattrs g names = inr ns →
  Forall2 (λ s n, g !! s = Some n) names ns.
Proof.
  revert ns. induction names as [|s names IH]; intros ns; simpl.
  - intros [= <-]. constructor.
  - destruct (g !! s) as [n|] eqn:Hs; [|done].
    destruct (Hdf5Dataset.getattrs g names) as [e|ns']; [done|].
    intros [= <-]. constructor; [done|]. by apply IH.
Qed.

Lemma getattrs_missing g names s :
  s ∈ names → g !! s = None →
  Hdf5Dataset.getattrs g names = inl Hdf5Dataset.NoSuchNodeError.
Proof.
  intros Hin Hs. induction names as [|s' names IH]; [by apply elem_of_nil in Hin|].
  simpl. apply elem_of_cons in Hin as [<- | Hin]; [by rewrite Hs|].
  destruct (g !! s'); [|done]. by rewrite IH.
Qed.

(** X17: when the constructor of [Hdf5Dataset] returns, the file exists
    and has the group [data_node]; the nodes of the dataset are the
    arrays of that group named by [sources_in_file] (by [sources] when
    [sources_in_file] is not given), one per name and in that order; and
    [num_examples] is [stop - start], whatever the lengths of the
    arrays. *)
Theorem hdf5_init_nodes disk (sources : list string) (start stop : Z)
    (p data_node : string) (sources_in_file : option (list string)) d :
  Hdf5Dataset.init disk sources start stop p data_node sources_in_file = inr d →
  ∃ f g ns,
    disk !! p = Some f ∧ f !! data_node = Some g
    ∧ Hdf5Dataset.nodes d = Some ns
    ∧ Forall2 (λ s n, g !! s = Some n) (default sources sources_in_file) ns
    ∧ Hdf5Dataset.num_examples d = (stop - start)%Z
    ∧ Hdf5Dataset.start d = start.
Proof.
  unfold Hdf5Dataset.init, Hdf5Dataset.open_file. simpl.
  destruct (disk !! p) as [f|] eqn:Hf; [|done].
  destruct (f !! data_node) as [g|] eqn:Hgr; [|done].
  destruct (Hdf5Dataset.getattrs g (default sources sources_in_file)) as [e|ns] eqn:Hg;
    [done|].
  intros [= <-]. exists f, g, ns. simpl.
  split; [done|]. split; [done|]. split; [done|].
  split; [by apply getattrs_inr | done].
Qed.

(** X18: [load] of an [Hdf5Dataset] raises [NoSuchNodeError] as soon as
    one of the names in [sources_in_file] is not an array of the group,
    and [IOError] when there is no file under the path. *)
Theorem hdf5_load_missing disk d :
  (disk !! Hdf5Dataset.path d = None →
   Hdf5Dataset.load disk d = inl (Hdf5Dataset.Builtin IOError))
  ∧ (∀ f g s,
       disk !! Hdf5Dataset.path d = Some f →
       f !! Hdf5Dataset.data_node d = Some g →
       s ∈ Hdf5Dataset.sources_in_file d → g !! s = None →
       Hdf5Dataset.load disk d = inl Hdf5Dataset.NoSuchNodeError).
Proof.
  unfold Hdf5Dataset.load, Hdf5Dataset.open_file. split.
  - by intros ->.
  - intros f g s -> -> Hin Hs. by rewrite (getattrs_missing g _ s).
Qed.

(** X19: for a start that is not negative, [Hdf5Dataset.get_data]
    answers the request [[i, j)] (bounds not negative, step 1 or None)
    with the rows [i + start] to [j + start - 1] of every node, one
    array per node and in the order of the nodes, cut only at the end of
    the node; [stop] plays no part.  The branch for a zero start, which
    skips the translation, gives the same rows as a translation by 0. *)
Theorem hdf5_get_data_rows d st ns (i j : Z) step :
  Hdf5Dataset.nodes d = Some ns →
  step_ok step = true →
  (0 ≤ Hdf5Dataset.start d)%Z → (0 ≤ i)%Z → (0 ≤ j)%Z →
  Hdf5Dataset.get_data d st (PSlice (Slice (Some i) (Some j) step))
  = inr ((λ n, Rows (take (Z.to_nat j - Z.to_nat i)
                       (drop (Z.to_nat i + Z.to_nat (Hdf5Dataset.start d)) n)))
           <$> ns).
Proof.
  intros Hn Hstep Hs Hi Hj. unfold Hdf5Dataset.get_data, Hdf5Dataset.shift.
  rewrite Hn. destruct (Hdf5Dataset.start d =? 0)%Z eqn:Hz.
  - apply Z.eqb_eq in Hz. rewrite Hz.
    apply traverse_total. intros n _. cbv beta.
    rewrite getitem_slice_nonneg by done. by rewrite Nat.add_0_r.
  - cbn [py_add sl_start sl_stop sl_step]. apply traverse_total. intros n _. cbv beta.
    rewrite getitem_slice_nonneg by (done || lia).
    replace (Z.to_nat (j + Hdf5Dataset.start d) - Z.to_nat (i + Hdf5Dataset.start d))
      with (Z.to_nat j - Z.to_nat i) by lia.
    by replace (Z.to_nat (i + Hdf5Dataset.start d))
      with (Z.to_nat i + Z.to_nat (Hdf5Dataset.start d)) by lia.
Qed.

(** X20: [Hdf5Dataset.get_data] looks at the shape of the request only
    when [start] is not zero.  Then a request that is neither a slice
    nor a list raises [ValueError], and a slice whose start or stop is
    None raises [TypeError].  With a zero start the request reaches the
    nodes as it is, whatever its shape: a slice with a None bound and
    step 1 or None is answered with that slice of every node. *)
Theorem hdf5_request_checked_only_with_offset d st req :
  (Hdf5Dataset.start d ≠ 0%Z → is_slice req = false → is_list req = false →
   Hdf5Dataset.get_data d st req = inl ValueError)
  ∧ (∀ a b step, Hdf5Dataset.start d ≠ 0%Z → req = PSlice (Slice a b step) →
       a = None ∨ b = None →
       Hdf5Dataset.get_data d st req = inl TypeError)
  ∧ (Hdf5Dataset.start d = 0%Z → Hdf5Dataset.shift d req = inr req)
  ∧ (∀ ns a b step, Hdf5Dataset.start d = 0%Z → Hdf5Dataset.nodes d = Some ns →
       req = PSlice (Slice a b step) → step_ok step = true →
       Hdf5Dataset.get_data d st req
       = inr ((λ n, Rows (slice_rows (Slice a b step) n)) <$> ns)).
Proof.
  unfold Hdf5Dataset.get_data, Hdf5Dataset.shift. repeat split.
  - intros Hs%Z.eqb_neq Hsl Hl. rewrite Hs. by destruct req.
  - intros a b step Hs%Z.eqb_neq -> Hab. rewrite Hs. simpl.
    destruct a, b; try done; destruct Hab; done.
  - by intros ->.
  - intros ns a b step -> -> -> Hstep%step_ok_nonzero. simpl.
    apply traverse_total. intros n _. unfold getitem.
    by rewrite getslice_total.
Qed.

End Hdf5.

(** ** Concrete runs *)

(** *** The model on small inputs *)

Example getslice_clamps :
  getslice [1; 2; 3; 4; 5; 6]%Z (Slice (Some 1%Z) (Some 100%Z) (Some 2%Z))
  = inr [2; 4; 6]%Z.
Proof. reflexivity. Qed.

Example getslice_reversed :
  getslice [1; 2; 3; 4; 5; 6]%Z (Slice None None (Some (-1)%Z))
  = inr [6; 5; 4; 3; 2; 1]%Z.
Proof. reflexivity. Qed.

Example getslice_from_the_end :
  getslice [1; 2; 3; 4; 5; 6]%Z (Slice (Some (-2)%Z) None None) = inr [5; 6]%Z.
Proof. reflexivity. Qed.

Example getslice_zero_step :
  getslice [1; 2; 3]%Z (Slice None None (Some 0%Z)) = inl ValueError.
Proof. reflexivity. Qed.

Example getrow_wraps :
  getrow [1; 2; 3]%Z (-1) = inr 3%Z ∧ getrow [1; 2; 3]%Z 3 = inl IndexError.
Proof. split; reflexivity. Qed.

(** Constructing the streamed sample view acquires and releases the file
    once: the entry stays, with count zero, and the file stays open. *)
Example init_leaves_zero_count :
  ref_counts sample_streamed.2 !! Some "data.h5"
  = Some (Entry (Handle "data.h5" None sample_file) 0)
  ∧ trace sample_streamed.2 = [EvOpen "data.h5"].
Proof. split; vm_compute; reflexivity. Qed.

(** A token that was never acquired: [TypeError], and the [int] default
    stays in the registry. *)
Example query_unknown_token :
  ∃ w, get_handle (Some "nowhere.h5") sample_world = (inl TypeError, w)
       ∧ ref_counts w !! Some "nowhere.h5" = Some Zero.
Proof. eexists. split; vm_compute; reflexivity. Qed.

(** A streamed view called with the default state [None]. *)
Example streamed_default_state :
  (get_data sample_streamed.1 None (PSlice (Slice (Some 0%Z) (Some 5%Z) None))
            sample_streamed.2).1
  = inl TypeError.
Proof. vm_compute. reflexivity. Qed.

(** The checks of [load]: a subset step of 2, a split that the file does
    not have, and columns of different lengths. *)
Example load_rejects_step_two :
  (load (View "data.h5" (Some "test") (Slice None None (Some 2%Z)) false None
              None None None None) sample_world).1
  = inl ValueError.
Proof. vm_compute. reflexivity. Qed.

Example load_unknown_split :
  (load (View "data.h5" (Some "valid") (Slice None None None) false None
              None None None None) sample_world).1
  = inl KeyError.
Proof. vm_compute. reflexivity. Qed.

Example load_mismatched_lengths :
  (load (View "bad.h5" None (Slice None None None) false None None None None None)
        (World ∅ {["bad.h5" := H5File [("features", Column [1; 2; 3]%Z []);
                                        ("targets", Column [1; 2]%Z [])] ∅]} [])).1
  = inl ValueError.
Proof. vm_compute. reflexivity. Qed.

(** *** The theorems at the sample file *)

(** One acquisition and one release of the sample file. *)
Lemma acquire_release_keeps_entry_witness :
  ∃ w', (ts ← opens (sample_view false None) 1; closes ts) sample_world = (inr tt, w')
        ∧ ref_counts w' !! Some "data.h5"
          = Some (Entry (Handle "data.h5" None sample_file) 0)
        ∧ trace w' = [EvOpen "data.h5"].
Proof.
  apply (acquire_release_keeps_entry (sample_view false None) sample_world sample_file 1);
    [lia | reflexivity | reflexivity].
Defined.

(** Two sample views acquire the sample file. *)
Lemma open_twice_count_one_witness :
  ∃ w', (t1 ← _out_of_memory_open (sample_view false None);
         t2 ← _out_of_memory_open (sample_view true (Some ["targets"]));
         mret (t1, t2)) sample_world
        = (inr (Some "data.h5", Some "data.h5"), w')
        ∧ ref_counts w' !! Some "data.h5"
          = Some (Entry (Handle "data.h5" None sample_file) 1)
        ∧ trace w' = [EvOpen "data.h5"].
Proof.
  apply (open_twice_count_one (sample_view false None)
           (sample_view true (Some ["targets"])) sample_world sample_file);
    reflexivity.
Defined.

(** Two sample views acquire and release the sample file, then the
    registry is queried. *)
Lemma query_after_both_closed_witness :
  ∃ w', (t1 ← _out_of_memory_open (sample_view false None);
         t2 ← _out_of_memory_open (sample_view false (Some ["targets"]));
         _out_of_memory_close t1;; _out_of_memory_close t2;;
         get_handle (Some "data.h5")) sample_world
        = (inr (Handle "data.h5" None sample_file), w')
        ∧ ref_counts w' !! Some "data.h5"
          = Some (Entry (Handle "data.h5" None sample_file) (-1))
        ∧ trace w' = [EvOpen "data.h5"].
Proof.
  apply (query_after_both_closed (sample_view false None)
           (sample_view false (Some ["targets"])) sample_world sample_file);
    reflexivity.
Defined.

(** [load] for the subset (85, 95) of the test split, and for the whole
    sample file. *)
Lemma load_resolves_split_witness :
  (∃ v' w', load sample_view_subset sample_world = (inr v', w')
            ∧ subset v' = Slice (Some 85%Z) (Some 95%Z) None
            ∧ num_examples v' = Some 10%Z)
  ∧ (∃ v' w', load sample_view_whole sample_world = (inr v', w')
              ∧ sl_start (subset v') = Some 0%Z
              ∧ sl_stop (subset v') = Some 100%Z).
Proof.
  split.
  - destruct (load_resolves_split sample_view_subset sample_world sample_file)
      as [Hnamed _]; [reflexivity | reflexivity | reflexivity |].
    destruct (Hnamed "test" 80%Z 100%Z) as (v' & w' & Hload & _ & _ & Hxy);
      [reflexivity | discriminate | reflexivity |].
    exists v', w'. split; [exact Hload|].
    apply (Hxy 85%Z 95%Z); [reflexivity | reflexivity | lia].
  - destruct (load_resolves_split sample_view_whole sample_world sample_file)
      as [_ Hwhole]; [reflexivity | reflexivity | reflexivity |].
    destruct (Hwhole ("features", sample_features) [("targets", sample_targets)])
      as (v' & w' & Hload & Hs & He & _); [left; reflexivity | reflexivity |].
    exists v', w'. split; [exact Hload|]. split; [exact Hs | exact He].
Defined.

(** The scenario of the test split at the sample file. *)
Lemma streamed_request_translation_witness :
  (∃ v w1 st w2 v' w3,
     init "data.h5" (Some "test") None false None None sample_world = (inr v, w1)
     ∧ subset v = Slice (Some 80%Z) (Some 100%Z) None
     ∧ num_examples v = Some 20%Z
     ∧ open v w1 = (inr st, w2)
     ∧ get_data v st (PSlice (Slice (Some 0%Z) (Some 5%Z) None)) w2
       = (inr (v', [Rows (take 5 (drop 80 (rows sample_features)));
                    Rows (take 5 (drop 80 (rows sample_targets)))]), w3))
  ∧ get_data sample_streamed.1 (Some "data.h5") (PList [0; 3]%Z) sample_streamed.2
    = (data ← lift (traverse
                (λ c, getitem (rows c) (PList ((λ i, i + 80)%Z <$> [0; 3]%Z)))
                (values (Handle "data.h5" None sample_file)));
       filter_sources sample_streamed.1 data) sample_streamed.2.
Proof.
  destruct (@streamed_request_translation Z) as (_ & Hlist & _ & Hscenario).
  split.
  - apply (Hscenario (rows sample_features) (rows sample_targets) "data.h5" None
             sample_world); reflexivity.
  - apply (Hlist sample_streamed.1 sample_streamed.2 (Some "data.h5")
             (Handle "data.h5" None sample_file) 0%Z 80%Z [0; 3]%Z).
    + vm_compute. reflexivity.
    + vm_compute. reflexivity.
    + vm_compute. reflexivity.
    + unfold fits_int64. lia.
    + repeat constructor; unfold fits_int64; lia.
Defined.

(** An integer request to the streamed sample view, and the request
    [None] to the sample view in memory. *)
Lemma invalid_request_by_mode_witness :
  get_data (sample_view false None) None (PInt 3) sample_world
  = (inl ValueError, sample_world)
  ∧ get_data (sample_view true None) None PNone sample_world
    = (inl ValueError, sample_world).
Proof.
  split.
  - apply (proj1 (invalid_request_by_mode (sample_view false None) sample_world None
                    (PInt 3))); reflexivity.
  - apply (proj1 (proj2 (invalid_request_by_mode (sample_view true None) sample_world
                             None PNone))); [reflexivity | left; reflexivity].
Defined.

(** [load] once more on the sample view in memory. *)
Lemma load_twice_same_range_witness :
  ∃ v2 w2, load sample_loaded.1 sample_loaded.2 = (inr v2, w2)
           ∧ subset v2 = subset sample_loaded.1
           ∧ num_examples v2 = num_examples sample_loaded.1.
Proof.
  apply (load_twice_same_range (sample_view true None) sample_world).
  vm_compute. reflexivity.
Defined.

(** [slice(None)] on the streamed sample view and [slice(0, None)] on the
    sample view in memory. *)
Lemma open_ended_slice_by_mode_witness :
  get_data (sample_view false None) (Some "data.h5") (PSlice (Slice None None None))
           sample_world
  = (inl TypeError, sample_world)
  ∧ ∃ v' w', get_data sample_loaded.1 None (PSlice (Slice (Some 18%Z) None None))
                      sample_loaded.2
             = (inr (v', [Rows [98; 99]%Z; Rows [1098; 1099]%Z]), w').
Proof.
  split.
  - apply (proj1 (open_ended_slice_by_mode (sample_view false None) sample_world
                    None None None (or_introl eq_refl))); reflexivity.
  - destruct (proj2 (open_ended_slice_by_mode sample_loaded.1 sample_loaded.2
                       (Some 18%Z) None None (or_intror eq_refl))
                (sample_view true None) sample_world)
      as (h & w' & [n Hn] & _ & Hget & Hall).
    + vm_compute. reflexivity.
    + vm_compute. reflexivity.
    + discriminate.
    + vm_compute in Hn. injection Hn as <- <-.
      rewrite (Hall eq_refl eq_refl) in Hget.
      eexists _, w'. rewrite Hget. vm_compute. reflexivity.
Defined.

(** C5 (what the code does): over the sample file, with the one column
    [targets] requested, the view in memory returns no array at all for
    the request [slice(0, 5)], and the streamed view over the same path,
    split and column returns the rows 80 to 84 of [targets].  In memory
    the columns are filtered by name when [load] copies them, and the
    copies are filtered once more, by position, in [get_data]. *)
Theorem in_memory_one_source_differs_from_streamed :
  ∃ vm wm vs ws,
    (v ← init "data.h5" (Some "test") None true None (Some ["targets"]);
     get_data v None (PSlice (Slice (Some 0%Z) (Some 5%Z) None))) sample_world
    = (inr (vm, []), wm)
    ∧ (v ← init "data.h5" (Some "test") None false None (Some ["targets"]);
       st ← open v;
       get_data v st (PSlice (Slice (Some 0%Z) (Some 5%Z) None))) sample_world
      = (inr (vs, [Rows [1080; 1081; 1082; 1083; 1084]%Z]), ws).
Proof. eexists _, _, _, _. split; vm_compute; reflexivity. Qed.

(** C7 (what the code does): over a file of three columns with the
    columns [a] and [c] requested, the view in memory returns one array,
    the rows of [a], for the two exposed columns. *)
Theorem in_memory_two_sources_returns_one_array :
  ∃ v w,
    (v ← init "abc.h5" None None true None (Some ["a"; "c"]);
     get_data v None (PSlice (Slice (Some 0%Z) (Some 2%Z) None)))
      (World ∅ {["abc.h5" := H5File [("a", Column [1; 2; 3]%Z []);
                                      ("b", Column [4; 5; 6]%Z []);
                                      ("c", Column [7; 8; 9]%Z [])] ∅]} [])
    = (inr (v, [Rows [1; 2]%Z]), w).
Proof. eexists _, _. vm_compute. reflexivity. Qed.

(** C8 (counterexample): the sample view in memory answers the integer
    request [80 - 80 = 0], which is neither a slice nor a list, with the
    first row of each of its arrays. *)
Lemma in_memory_integer_request_returns_rows :
  is_slice (PInt 0) = false ∧ is_list (PInt 0) = false
  ∧ load_in_memory sample_loaded.1 = true
  ∧ ∃ v w, get_data sample_loaded.1 None (PInt 0) sample_loaded.2
           = (inr (v, [Row 80%Z; Row 1080%Z]), w).
Proof.
  split; [reflexivity|]. split; [reflexivity|]. split; [vm_compute; reflexivity|].
  eexists _, _. vm_compute. reflexivity.
Qed.

(** The two modes at the sample file, for the request [slice(3, 7)]. *)
Example modes_agree_at_sample :
  ∃ data vm' wm' vs' w3,
    get_data sample_loaded.1 None (PSlice (Slice (Some 3%Z) (Some 7%Z) None))
             sample_loaded.2
    = (inr (vm', data), wm')
    ∧ get_data sample_streamed.1 (Some "data.h5")
               (PSlice (Slice (Some 3%Z) (Some 7%Z) None)) sample_streamed.2
      = (inr (vs', data), w3).
Proof.
  apply (modes_agree_without_requested_sources "data.h5" (Some "test") None None
           sample_world sample_loaded.1 sample_loaded.2 sample_streamed.1
           sample_streamed.2 (Some "data.h5") sample_streamed.2 80 100 3 7);
    try (vm_compute; reflexivity); unfold fits_int64; lia.
Defined.

(** *** Further runs at the sample files *)

(** A [load] of the sample view leaves the keys of other paths alone. *)
Lemma call_leaves_other_keys_witness :
  ref_counts (exec (CallLoad (sample_view false None)) sample_world)
    !! Some "other.h5"
  = ref_counts sample_world !! Some "other.h5".
Proof.
  apply (call_leaves_other_keys (CallLoad (sample_view false None)) sample_world
           (Some "other.h5")).
  vm_compute. intros H. inversion H as [|? ? ? H']; inversion H'.
Defined.

(** The entry that a [load], an [open] and a [close] of the sample view
    leave. *)
Lemma calls_keep_entries_exact_witness :
  Some "data.h5" = Some (h_name (Handle "data.h5" None sample_file))
  ∧ disk sample_world !! h_name (Handle "data.h5" None sample_file)
    = Some (h_file (Handle "data.h5" None sample_file))
  ∧ (-1 ≤ 1)%Z.
Proof.
  apply (calls_keep_entries_exact (disk sample_world)
           [CallLoad (sample_view false None); CallOpen (sample_view false None);
            CallClose (sample_view false None) (Some "data.h5")]
           (Some "data.h5") (Handle "data.h5" None sample_file) (-1)).
  vm_compute. reflexivity.
Defined.

(** A [load] with step 2 over the sample file: the count stays 1. *)
Lemma load_failure_keeps_registration_witness :
  _out_of_memory_open
    (View "data.h5" (Some "test") (Slice None None (Some 2%Z)) false None
          None None None None) sample_world
  = (inr (Some "data.h5"),
     (load (View "data.h5" (Some "test") (Slice None None (Some 2%Z)) false None
                 None None None None) sample_world).2)
  ∧ ref_counts
      (load (View "data.h5" (Some "test") (Slice None None (Some 2%Z)) false None
                  None None None None) sample_world).2 !! Some "data.h5"
    = Some (Entry (Handle "data.h5" None sample_file) 1).
Proof.
  apply (load_failure_keeps_registration
           (View "data.h5" (Some "test") (Slice None None (Some 2%Z)) false None
                 None None None None) sample_world sample_file ValueError).
  - reflexivity.
  - vm_compute. reflexivity.
Defined.

Lemma load_rejects_mismatched_columns_witness :
  ∃ w', load (View "bad.h5" None (Slice None None None) false None None None None
                   None) sample_bad_world
        = (inl ValueError, w').
Proof.
  apply (load_rejects_mismatched_columns
           (View "bad.h5" None (Slice None None None) false None None None None None)
           sample_bad_world sample_bad_file
           (Column [1; 2; 3]%Z []) (Column [1; 2]%Z [])).
  - reflexivity.
  - apply list_elem_of_here.
  - apply list_elem_of_further, list_elem_of_here.
  - vm_compute. discriminate.
Defined.

Lemma load_rejects_step_witness :
  ∃ w', load (View "data.h5" (Some "test") (Slice None None (Some 2%Z)) false None
                   None None None None) sample_world
        = (inl ValueError, w').
Proof.
  apply (load_rejects_step
           (View "data.h5" (Some "test") (Slice None None (Some 2%Z)) false None
                 None None None None) sample_world sample_file 2);
    [reflexivity | reflexivity | reflexivity | lia].
Defined.

Lemma load_unknown_split_raises_witness :
  ∃ w', load (View "data.h5" (Some "valid") (Slice None None None) false None
                   None None None None) sample_world
        = (inl KeyError, w').
Proof.
  apply (load_unknown_split_raises
           (View "data.h5" (Some "valid") (Slice None None None) false None
                 None None None None) sample_world sample_file "valid");
    [reflexivity | reflexivity | reflexivity | reflexivity | discriminate | reflexivity].
Defined.

Lemma load_missing_file_witness :
  load (View "nowhere.h5" None (Slice None None None) false None None None None None)
       sample_world
  = (inl IOError,
     set_ref_counts (<[Some "nowhere.h5" := Zero]> (ref_counts sample_world))
                    sample_world).
Proof.
  apply (load_missing_file
           (View "nowhere.h5" None (Slice None None None) false None None None None
                 None) sample_world); reflexivity.
Defined.

Lemma in_memory_arrays_have_num_examples_rows_witness :
  num_examples sample_loaded.1 = Some (100 - 80)%Z
  ∧ ∃ ds, data_sources sample_loaded.1 = Some ds
          ∧ Forall (λ d, Z.of_nat (length d) = (100 - 80)%Z) ds.
Proof.
  apply (in_memory_arrays_have_num_examples_rows (sample_view true None) sample_world
           sample_loaded.1 sample_loaded.2 sample_file 100 80 100).
  - reflexivity.
  - vm_compute. reflexivity.
  - reflexivity.
  - intros c Hc. simpl in Hc.
    apply elem_of_cons in Hc as [-> | Hc]; [reflexivity|].
    apply elem_of_cons in Hc as [-> | Hc]; [reflexivity|].
    by apply elem_of_nil in Hc.
  - vm_compute. reflexivity.
  - vm_compute. reflexivity.
  - lia.
Defined.

Lemma provides_sources_reads_then_caches_witness :
  ∃ v' w',
    provides_sources (sample_view false None) sample_world
    = (inr (v', ["features"; "targets"]), w')
    ∧ provides_sources v' w' = (inr (v', ["features"; "targets"]), w')
    ∧ disk w' = disk sample_world.
Proof.
  apply (provides_sources_reads_then_caches (sample_view false None) sample_world
           sample_file); reflexivity.
Defined.

Lemma open_after_load_changes_nothing_witness :
  open sample_streamed.1 sample_streamed.2 = (inr (Some "data.h5"), sample_streamed.2).
Proof.
  apply (open_after_load_changes_nothing (sample_view false None) sample_world).
  - vm_compute. reflexivity.
  - reflexivity.
Defined.

Lemma release_before_acquire_witness :
  ∃ w1 w2,
    _out_of_memory_close (Some "data.h5") sample_world = (inl TypeError, w1)
    ∧ ref_counts w1 !! Some "data.h5" = Some Zero
    ∧ _out_of_memory_open (sample_view false None) w1 = (inr (Some "data.h5"), w2)
    ∧ ref_counts w2 !! Some "data.h5"
      = Some (Entry (Handle "data.h5" None sample_file) 1)
    ∧ trace w2 = [EvOpen "data.h5"].
Proof.
  apply (release_before_acquire (sample_view false None) sample_world sample_file);
    reflexivity.
Defined.

(** The streamed sample view called with the default state [None]. *)
Lemma streamed_get_data_unregistered_state_witness :
  get_data sample_streamed.1 None (PSlice (Slice (Some 0%Z) (Some 5%Z) None))
           sample_streamed.2
  = (inl TypeError,
     set_ref_counts (<[None := Zero]> (ref_counts sample_streamed.2))
                    sample_streamed.2).
Proof.
  apply (streamed_get_data_unregistered_state sample_streamed.1 sample_streamed.2 None
           (PSlice (Slice (Some 0%Z) (Some 5%Z) None))
           (PSlice (Slice (Some 80%Z) (Some 85%Z) None))).
  - vm_compute. reflexivity.
  - vm_compute. reflexivity.
  - left. vm_compute. reflexivity.
Defined.

(** The streamed view of the rows 85 to 95, asked for 12 rows. *)
Lemma streamed_slice_ignores_stop_witness :
  ∃ w', get_data sample_subset_streamed.1 (Some "data.h5")
                 (PSlice (Slice (Some 0%Z) (Some 12%Z) None)) sample_subset_streamed.2
        = (inr (cached sample_subset_streamed.1 (Handle "data.h5" None sample_file),
                (λ it : string * column Z,
                   Rows (take (Z.to_nat 12 - Z.to_nat 0)
                              (drop (Z.to_nat 0 + Z.to_nat 85) (rows it.2))))
                  <$> filter (λ it, it.1 ∈ exposed sample_subset_streamed.1
                                          (Handle "data.h5" None sample_file))
                        (items (Handle "data.h5" None sample_file))), w').
Proof.
  apply (streamed_slice_ignores_stop sample_subset_streamed.1 sample_subset_streamed.2
           (Handle "data.h5" None sample_file) 85 0 12 None).
  - vm_compute. reflexivity.
  - vm_compute. reflexivity.
  - exists 0%Z. vm_compute. reflexivity.
  - vm_compute. reflexivity.
  - reflexivity.
  - lia.
  - lia.
  - lia.
  - unfold fits_int64. lia.
  - unfold fits_int64. lia.
Defined.

Lemma hdf5_init_nodes_witness :
  ∃ f g ns,
    sample_tables_disk !! "legacy.h5" = Some f ∧ f !! "Data" = Some g
    ∧ Hdf5Dataset.nodes sample_legacy = Some ns
    ∧ Forall2 (λ s n, g !! s = Some n) ["features"; "targets"] ns
    ∧ Hdf5Dataset.num_examples sample_legacy = (100 - 80)%Z
    ∧ Hdf5Dataset.start sample_legacy = 80%Z.
Proof.
  apply (hdf5_init_nodes sample_tables_disk ["features"; "targets"] 80 100
           "legacy.h5" "Data" None sample_legacy).
  vm_compute. reflexivity.
Defined.

Lemma hdf5_load_missing_witness :
  Hdf5Dataset.load sample_tables_disk
    (Hdf5Dataset.Make ["features"; "labels"] ["features"; "labels"] "legacy.h5" "Data"
                      0 10 10 None None)
  = inl Hdf5Dataset.NoSuchNodeError.
Proof.
  eapply (proj2 (hdf5_load_missing sample_tables_disk
            (Hdf5Dataset.Make ["features"; "labels"] ["features"; "labels"]
                              "legacy.h5" "Data" 0 10 10 None None)))
    with (s := "labels").
  - reflexivity.
  - reflexivity.
  - apply list_elem_of_further, list_elem_of_here.
  - reflexivity.
Defined.

Lemma hdf5_get_data_rows_witness :
  Hdf5Dataset.get_data sample_legacy None (PSlice (Slice (Some 0%Z) (Some 5%Z) None))
  = inr ((λ n, Rows (take (Z.to_nat 5 - Z.to_nat 0)
                       (drop (Z.to_nat 0 + Z.to_nat (Hdf5Dataset.start sample_legacy)) n)))
           <$> [rows sample_features; rows sample_targets]).
Proof.
  apply (hdf5_get_data_rows sample_legacy None
           [rows sample_features; rows sample_targets] 0 5 None).
  - vm_compute. reflexivity.
  - reflexivity.
  - vm_compute. discriminate.
  - lia.
  - lia.
Defined.

Lemma hdf5_request_checked_only_with_offset_witness :
  Hdf5Dataset.get_data sample_legacy None (PInt 3) = inl ValueError
  ∧ Hdf5Dataset.get_data sample_legacy None (PSlice (Slice None None None))
    = inl TypeError
  ∧ Hdf5Dataset.get_data sample_legacy_whole None
      (PSlice (Slice (Some 98%Z) None None))
    = inr ((λ n, Rows (slice_rows (Slice (Some 98%Z) None None) n))
             <$> [rows sample_features; rows sample_targets]).
Proof.
  split; [|split].
  - apply (proj1 (hdf5_request_checked_only_with_offset sample_legacy None (PInt 3)));
      [vm_compute; discriminate | reflexivity | reflexivity].
  - apply (proj1 (proj2 (hdf5_request_checked_only_with_offset sample_legacy None
                           (PSlice (Slice None None None)))) None None None);
      [vm_compute; discriminate | reflexivity | left; reflexivity].
  - apply (proj2 (proj2 (proj2 (hdf5_request_checked_only_with_offset
                                  sample_legacy_whole None
                                  (PSlice (Slice (Some 98%Z) None None)))))
             [rows sample_features; rows sample_targets] (Some 98%Z) None None);
      reflexivity.
Defined.

